(** * Claude Web Chat: the session client, the SSE decoder and the chat panel

    A shallow embedding of [claudeClient.ts] (class [ClaudeApiClient]) and of
    the controller half of [chatPanel.ts] (class [ClaudeChatPanel]), with the
    properties of the streaming decoder and of the conversation state machine
    stated and settled over it.

    Conventions of the embedding.
    - A JavaScript string is a Rocq [string]; a character stands for the code
      unit with the same number (U+0000 to U+00FF).
    - A value of type [any] (what [JSON.parse] returns, what a property read
      yields) is a [value]: the JSON data model plus [undefined].
    - The host's built-ins that the source calls but does not define
      ([JSON.parse], the number type with its conversions) are the fields of
      the class [Host]; every definition and theorem is parametric in it, and
      [RefHost] is an executable instance used to run concrete exchanges.
    - A chunk of a response is the text [chunk.toString()] yields;
      [Buffer.toString] gives that text for the [Buffer]s it is read from.
    - Promises and callbacks are sequentialised: one panel operation runs to
      completion, with the events of its HTTP exchanges delivered in order.
      [_handleUserMessageWhile] is the handler with the other listeners of
      the panel running while it waits. *)

From Stdlib Require Import String Ascii List Bool Arith ZArith NArith Lia.
From Stdlib Require Import DecimalString.
Import ListNotations.
Open Scope list_scope.
Open Scope string_scope.

Set Implicit Arguments.

(** ** String primitives of the host, as the source uses them *)

Module Str.

Definition LF : ascii := "010"%char.

(** [s.length === 0], the falsy string. *)
Definition isEmpty (s : string) : bool :=
  match s with EmptyString => true | String _ _ => false end.

(** WhiteSpace and LineTerminator code units below U+0100, the set that
    [String.prototype.trim] strips: TAB, LF, VT, FF, CR, SP, NBSP. *)
Definition isWhiteSpace (c : ascii) : bool :=
  let n := nat_of_ascii c in
  Nat.eqb n 9 || Nat.eqb n 10 || Nat.eqb n 11 || Nat.eqb n 12 || Nat.eqb n 13
  || Nat.eqb n 32 || Nat.eqb n 160.

Fixpoint trimStart (s : string) : string :=
  match s with
  | EmptyString => EmptyString
  | String c s' => if isWhiteSpace c then trimStart s' else s
  end.

Fixpoint trimEnd (s : string) : string :=
  match s with
  | EmptyString => EmptyString
  | String c s' =>
      match trimEnd s' with
      | EmptyString => if isWhiteSpace c then EmptyString else String c EmptyString
      | t => String c t
      end
  end.

(** [s.trim()] *)
Definition trim (s : string) : string := trimEnd (trimStart s).

(** [s.startsWith(p)] *)
Definition startsWith (p s : string) : bool := String.prefix p s.

(** [s.slice(n)] for a non-negative [n]. *)
Fixpoint slice (n : nat) (s : string) : string :=
  match n, s with
  | O, _ => s
  | S _, EmptyString => EmptyString
  | S n', String _ s' => slice n' s'
  end.

(** [s.includes(c)] for a one-character needle. *)
Fixpoint includes (c : ascii) (s : string) : bool :=
  match s with
  | EmptyString => false
  | String d s' => Ascii.eqb c d || includes c s'
  end.

(** [s.split(sep)] for a one-character separator: never the empty list,
    the last piece is what follows the last separator. *)
Fixpoint split (sep : ascii) (s : string) : list string :=
  match s with
  | EmptyString => [EmptyString]
  | String c s' =>
      if Ascii.eqb c sep then EmptyString :: split sep s'
      else match split sep s' with
           | [] => [String c EmptyString]
           | piece :: pieces => String c piece :: pieces
           end
  end.

(** [a.join(sep)] on strings. *)
Fixpoint join (sep : string) (l : list string) : string :=
  match l with
  | [] => EmptyString
  | [x] => x
  | x :: rest => x ++ sep ++ join sep rest
  end.

(** Literals of the examples are written with ['] where the text has a
    double quote. *)
Fixpoint dq (s : string) : string :=
  match s with
  | EmptyString => EmptyString
  | String c s' => String (if Ascii.eqb c "'"%char then "034"%char else c) (dq s')
  end.

(** Empty, or made of characters that [trim] strips. *)
Fixpoint isBlank (s : string) : bool :=
  match s with
  | EmptyString => true
  | String c s' => isWhiteSpace c && isBlank s'
  end.

(** A line of text followed by the line terminator. *)
Definition line (s : string) : string := s ++ String LF EmptyString.

End Str.

(** ** Values of type [any] *)

Set Warnings "-register-all".

Section Values.

Variable number : Type.

(** What [JSON.parse] can return, and [undefined] for a missing property. *)
Inductive value : Type :=
| VUndefined
| VNull
| VBoolean (b : bool)
| VNumber (n : number)
| VString (s : string)
| VArray (elements : list value)
| VObject (properties : list (string * value)).

End Values.

Arguments VUndefined {number}.
Arguments VNull {number}.
Arguments VBoolean {number} b.
Arguments VNumber {number} n.
Arguments VString {number} s.
Arguments VArray {number} elements.
Arguments VObject {number} properties.

(** The built-ins of the host that the source calls: the number type with
    [ToBoolean] and [ToString] on it, and [JSON.parse] ([None] when it throws
    a SyntaxError). *)
Class Host : Type := {
  number : Type;
  numberToBoolean : number -> bool;
  numberToString : number -> string;
  JSON_parse : string -> option (value number)
}.

(** A small error monad for the bodies of [try] blocks: [None] is a throw. *)
Definition obind {A B : Type} (x : option A) (f : A -> option B) : option B :=
  match x with Some a => f a | None => None end.

Notation "x <-? e ;; k" := (obind e (fun x => k))
  (at level 61, e at next level, right associativity).

Section Dynamic.

Context {host : Host}.

Definition any : Type := value number.

(** The own property [k] of an object literal read by [JSON.parse]: the last
    binding of a repeated key is the one kept. *)
Fixpoint lookup (k : string) (properties : list (string * any)) : any :=
  match properties with
  | [] => VUndefined
  | (k', v) :: rest =>
      match lookup k rest with
      | VUndefined => if String.eqb k' k then v else VUndefined
      | later => later
      end
  end.

(** [v.k], for the property names the source reads ([type], [delta],
    [text], [completion], [uuid]), none of which a built-in prototype
    defines. [None] is the TypeError of reading a property of [null] or
    [undefined]. *)
Definition Get (v : any) (k : string) : option any :=
  match v with
  | VUndefined | VNull => None
  | VObject properties => Some (lookup k properties)
  | _ => Some VUndefined
  end.

(** [v?.k] *)
Definition GetOptional (v : any) (k : string) : option any :=
  match v with
  | VUndefined | VNull => Some VUndefined
  | _ => Get v k
  end.

(** [v === 'lit'] *)
Definition strictEquals (v : any) (lit : string) : bool :=
  match v with
  | VString s => String.eqb s lit
  | _ => false
  end.

(** [!!v] *)
Definition ToBoolean (v : any) : bool :=
  match v with
  | VUndefined | VNull => false
  | VBoolean b => b
  | VNumber n => numberToBoolean n
  | VString s => negb (Str.isEmpty s)
  | VArray _ | VObject _ => true
  end.

(** [String(v)], as template literals and [+=] on a string apply it. *)
Fixpoint ToString (v : any) : string :=
  match v with
  | VUndefined => "undefined"
  | VNull => "null"
  | VBoolean true => "true"
  | VBoolean false => "false"
  | VNumber n => numberToString n
  | VString s => s
  | VArray elements =>
      Str.join ","
        (map (fun e => match e with
                       | VUndefined | VNull => EmptyString
                       | _ => ToString e
                       end) elements)
  | VObject _ => "[object Object]"
  end.

(** [Array.isArray(v)] with the elements at hand. *)
Definition asArray (v : any) : option (list any) :=
  match v with
  | VArray elements => Some elements
  | _ => None
  end.

End Dynamic.

(** ** One HTTPS exchange, as the callbacks of [https.request] see it *)

(** How the body of a response finishes: the ['end'] event, or the ['error']
    event of a connection lost before the body was complete. *)
Inductive Finish : Type :=
| end_
| aborted (message : string).

(** The response object: its status, the texts of its ['data'] events in
    order, and how it finishes. *)
Record IncomingMessage : Type := {
  statusCode : N;
  data : list string;
  finish : Finish
}.

(** The request fails before any response (['error'] on the request, with
    the message of the error), or the response callback runs. *)
Inductive Exchange : Type :=
| failed (message : string)
| response (res : IncomingMessage).

(** What the remote side answers to the three calls of one panel operation,
    and the two values the operation draws from the host: the identifier
    [generateUUID] builds from [Math.random], and the host's time zone. *)
Record World : Type := {
  organizations : Exchange;
  chat_conversations : Exchange;
  completion : Exchange;
  uuid : string;
  timeZone : string
}.

(** How an [await]ed call comes back: with a value, with a thrown error (its
    [message]), or never (a promise that no event settles). *)
Inductive Outcome (A : Type) : Type :=
| Returned (a : A)
| Thrown (message : string)
| Pending.

Arguments Thrown {A} message.
Arguments Pending {A}.

Definition decimal (n : N) : string := NilZero.string_of_uint (N.to_uint n).

(** The whole body of a response that ended, as [data += chunk] collects it. *)
Definition collect (res : IncomingMessage) : string :=
  fold_left append (data res) EmptyString.

(** [Message] of [claudeClient.ts]. *)
Inductive Role : Type := user | assistant.

Record Message : Type := {
  role : Role;
  content : string
}.

(** [a[a.length - 1]]: [None] is [undefined], on the empty array. *)
Fixpoint lastOf {A : Type} (a : list A) : option A :=
  match a with
  | [] => None
  | [x] => Some x
  | _ :: rest => lastOf rest
  end.

Section Client.

Context {host : Host}.

(** *** Requests and callbacks *)

(** The options of [https.request] and the body written: the descriptive
    headers, the same on every call, and [Content-Length] are left out. *)
Record Request : Type := {
  method : string;
  path : string;
  Cookie : string;
  Accept : option string;
  body : option any
}.

(** The three callbacks [sendMessage] is given. *)
Inductive Callback : Type :=
| onChunk (text : any)
| onDone
| onError (message : string).

(** *** [ClaudeApiClient] *)

(** The one slot of the secret storage, under [COOKIE_KEY]. *)
Definition SecretStorage : Type := option string.

Definition setCookie (cookie : string) (secrets : SecretStorage) : SecretStorage :=
  Some (Str.trim cookie).

Definition clearCookie (secrets : SecretStorage) : SecretStorage := None.

Definition getCookie (secrets : SecretStorage) : option string := secrets.

(** [!c] on [string | undefined] *)
Definition noCookie (c : option string) : bool :=
  match c with
  | Some s => Str.isEmpty s
  | None => true
  end.

Definition hasCookie (secrets : SecretStorage) : bool :=
  negb (noCookie (getCookie secrets)).

(** The [Cookie] header of [buildHeaders]. *)
Definition cookieHeader (cookie : string) : string :=
  if Str.includes "="%char cookie then cookie else "sessionKey=" ++ cookie.

(** [getOrganizationId]: the request it issues, if any, and how it settles. *)
Definition getOrganizationId (secrets : SecretStorage) (w : World)
  : list Request * Outcome any :=
  match getCookie secrets with
  | Some cookie =>
      if Str.isEmpty cookie then ([], Thrown "No session cookie set.")
      else
        let req := {| method := "GET"; path := "/api/organizations";
                      Cookie := cookieHeader cookie; Accept := None;
                      body := None |} in
        ([req],
         match organizations w with
         | failed message => Thrown message
         | response res =>
             match finish res with
             | aborted _ => Pending
             | end_ =>
                 let data := collect res in
                 match (orgs <-? JSON_parse data ;;
                        match asArray orgs with
                        | None | Some [] =>
                            Some (Thrown ("Could not get organization. Response: " ++ data))
                        | Some (first :: _) =>
                            id <-? Get first "uuid" ;; Some (Returned id)
                        end) with
                 | Some outcome => outcome
                 | None => Thrown ("Failed to parse org response: " ++ data)
                 end
             end
         end)
  | None => ([], Thrown "No session cookie set.")
  end.

(** The body of the [try] block of the ['data'] listener, for one payload:
    the callbacks it makes, [None] when something in it throws. *)
Definition interpret (data : string) : option (list Callback) :=
  parsed <-? JSON_parse data ;;
  type <-? Get parsed "type" ;;
  isDelta <-? (if strictEquals type "content_block_delta"
               then delta <-? Get parsed "delta" ;;
                    deltaType <-? GetOptional delta "type" ;;
                    Some (strictEquals deltaType "text_delta")
               else Some false) ;;
  if isDelta
  then delta <-? Get parsed "delta" ;;
       text <-? Get delta "text" ;;
       Some [onChunk text]
  else completion <-? Get parsed "completion" ;;
       Some (if ToBoolean completion then [onChunk completion] else []).

(** The [for] loop of the ['data'] listener over the complete lines: the
    [return] after [onDone()] leaves the listener, so the lines after a
    terminator line in the same list are not looked at. *)
Fixpoint forLines (lines : list string) : list Callback :=
  match lines with
  | [] => []
  | line :: rest =>
      if Str.startsWith "data: " line then
        let data := Str.trim (Str.slice 6 line) in
        if String.eqb data "[DONE]" then [onDone]
        else
          (match interpret data with
           | Some calls => calls
           | None => []
           end ++ forLines rest)%list
      else forLines rest
  end.

(** [lines.pop() || ''] and what is left in [lines]. *)
Definition pop (lines : list string) : list string * string :=
  (removelast lines, last lines EmptyString).

(** The ['data'] listener of a response below 400: the new [buffer] and
    the callbacks made. *)
Definition onData (buffer chunk : string) : string * list Callback :=
  let buffer := buffer ++ chunk in
  let lines := Str.split Str.LF buffer in
  let '(lines, buffer) := pop lines in
  (buffer, forLines lines).

(** The ['data'] events of one response, in order. *)
Fixpoint onDataEvents (buffer : string) (chunks : list string) : list Callback :=
  match chunks with
  | [] => []
  | chunk :: rest =>
      let '(buffer, calls) := onData buffer chunk in
      (calls ++ onDataEvents buffer rest)%list
  end.

(** The response callback of [sendMessage] and the listeners it installs.
    At 400 and above only ['data'] and ['end'] are listened to; below, the
    three of ['data'], ['end'] and ['error']. A response that is cut off
    emits ['error'] to the listeners it has, and no ['end']. *)
Definition onResponse (res : IncomingMessage) : list Callback :=
  if (400 <=? statusCode res)%N then
    match finish res with
    | end_ => [onError ("HTTP " ++ decimal (statusCode res) ++ ": " ++ collect res)]
    | aborted _ => []
    end
  else
    (onDataEvents EmptyString (data res)
     ++ match finish res with
        | end_ => [onDone]
        | aborted message => [onError message]
        end)%list.

(** The listeners of the request of [sendMessage]: ['error'] on the request
    goes to [onError], a response to [onResponse]. *)
Definition onExchange (exchange : Exchange) : list Callback :=
  match exchange with
  | failed message => [onError message]
  | response res => onResponse res
  end.

(** *** The decoder, read from outside *)

(** A line whose payload is the terminator. *)
Definition isTerminator (line : string) : bool :=
  Str.startsWith "data: " line
  && String.eqb (Str.trim (Str.slice 6 line)) "[DONE]".

(** The complete lines of a text and the fragment after its last line
    terminator. *)
Definition completeLines (text : string) : list string :=
  fst (pop (Str.split Str.LF text)).

Definition fragment (text : string) : string :=
  snd (pop (Str.split Str.LF text)).

(** The body that a list of chunks adds up to. *)
Definition bodyOf (chunks : list string) : string :=
  fold_right append EmptyString chunks.

(** The two envelopes of the wire format, in the words of the
    specification: the nested one has [type] [content_block_delta] and a
    [delta] object of [type] [text_delta], whose [text] it carries; the
    legacy one carries [completion] directly. *)
Definition isTextDelta (payload : any) : bool :=
  match payload with
  | VObject properties =>
      strictEquals (lookup "type" properties) "content_block_delta"
      && match lookup "delta" properties with
         | VObject inner => strictEquals (lookup "type" inner) "text_delta"
         | _ => false
         end
  | _ => false
  end.

Definition deltaText (payload : any) : any :=
  match payload with
  | VObject properties =>
      match lookup "delta" properties with
      | VObject inner => lookup "text" inner
      | _ => VUndefined
      end
  | _ => VUndefined
  end.

Definition completionOf (payload : any) : any :=
  match payload with
  | VObject properties => lookup "completion" properties
  | _ => VUndefined
  end.

Definition isChunkCall (call : Callback) : bool :=
  match call with
  | onChunk _ => true
  | onDone | onError _ => false
  end.

(** No complete line of the response is a terminator. *)
Definition terminatorFree (res : IncomingMessage) : bool :=
  negb (existsb isTerminator (completeLines (bodyOf (data res)))).


(** An exchange that is not cut off: no response at all, or a response
    that ends. *)
Definition settles (exchange : Exchange) : bool :=
  match exchange with
  | failed _ => true
  | response res =>
      match finish res with
      | end_ => true
      | aborted _ => false
      end
  end.

(** A streaming exchange with no terminator line in it and, at 400 and
    above, not cut off. *)
Definition plain (exchange : Exchange) : bool :=
  match exchange with
  | failed _ => true
  | response res =>
      if (400 <=? statusCode res)%N then settles exchange else terminatorFree res
  end.

(** [sendMessage]: the request it issues, if any; when it returns, the
    callbacks that the events of the exchange make afterwards, in order. *)
Definition sendMessage (secrets : SecretStorage) (orgId conversationId : any)
    (messages : list Message) (w : World)
  : list Request * Outcome (list Callback) :=
  if noCookie (getCookie secrets) then ([], Thrown "No session cookie set.")
  else
    match getCookie secrets, lastOf messages with
    | Some cookie, Some lastMessage =>
        let body :=
          VObject [("prompt", VString (content lastMessage));
                   ("timezone", VString (timeZone w));
                   ("attachments", VArray []);
                   ("files", VArray [])] in
        let req :=
          {| method := "POST";
             path := "/api/organizations/" ++ ToString orgId
                     ++ "/chat_conversations/" ++ ToString conversationId
                     ++ "/completion";
             Cookie := cookieHeader cookie;
             Accept := Some "text/event-stream";
             body := Some body |} in
        ([req], Returned (onExchange (completion w)))
    | _, _ =>
        ([], Thrown "Cannot read properties of undefined (reading 'content')")
    end.

End Client.

(** ** [ClaudeChatPanel] *)

(** The messages the panel posts to its webview. *)
Inductive WebviewMessage {host : Host} : Type :=
| cookieStatus (has : bool)
| userMessage (text : string)
| thinking
| status (text : string)
| startAssistantMessage
| chunk (text : any)
| done
| error (text : string)
| clearChat.

(** What an operation does to the outside, in order. *)
Inductive Effect {host : Host} : Type :=
| postMessage (m : WebviewMessage)
| request (r : Request).

(** The secret storage of the extension and the fields of the panel. *)
Record State {host : Host} : Type := {
  secrets : SecretStorage;
  _messages : list Message;
  _orgId : any;
  _conversationId : any
}.

Section Panel.

Context {host : Host}.

Definition set_messages (messages : list Message) (st : State) : State :=
  {| secrets := secrets st; _messages := messages;
     _orgId := _orgId st; _conversationId := _conversationId st |}.

Definition set_orgId (orgId : any) (st : State) : State :=
  {| secrets := secrets st; _messages := _messages st;
     _orgId := orgId; _conversationId := _conversationId st |}.

Definition set_conversationId (conversationId : any) (st : State) : State :=
  {| secrets := secrets st; _messages := _messages st;
     _orgId := _orgId st; _conversationId := conversationId |}.

(** *** The monad of the panel's methods: state, a log of effects, and the
    three ways a call comes back. *)

Definition M (A : Type) : Type := State -> Outcome A * State * list Effect.

Definition ret {A : Type} (a : A) : M A := fun st => (Returned a, st, []).

Definition bind {A B : Type} (c : M A) (k : A -> M B) : M B :=
  fun st =>
    match c st with
    | (Returned a, st', log) =>
        let '(o, st'', log') := k a st' in (o, st'', (log ++ log')%list)
    | (Thrown message, st', log) => (Thrown message, st', log)
    | (Pending, st', log) => (Pending, st', log)
    end.

Definition get : M State := fun st => (Returned st, st, []).

Definition modify (f : State -> State) : M unit :=
  fun st => (Returned tt, f st, []).

Definition post (m : WebviewMessage) : M unit :=
  fun st => (Returned tt, st, [postMessage m]).

(** An [await]ed call of the client: its requests go to the log. *)
Definition await {A : Type} (call : list Request * Outcome A) : M A :=
  fun st => (snd call, st, map request (fst call)).

(** [try { c } catch (err) { handler err.message }] *)
Definition tryCatch {A : Type} (c : M A) (handler : string -> M A) : M A :=
  fun st =>
    match c st with
    | (Thrown message, st', log) =>
        let '(o, st'', log') := handler message st' in (o, st'', (log ++ log')%list)
    | r => r
    end.

End Panel.

Notation "x <- c ;; k" := (bind c (fun x => k))
  (at level 61, c at next level, right associativity).
Notation "c ;;; k" := (bind c (fun _ => k))
  (at level 61, right associativity).

Section PanelMethods.

Context {host : Host}.

(** [_checkCookieStatus] *)
Definition _checkCookieStatus : M unit :=
  st <- get ;;
  post (cookieStatus (hasCookie (secrets st))).

(** [_startNewConversation] *)
Definition _startNewConversation : M unit :=
  modify (set_messages []) ;;;
  modify (set_conversationId VUndefined) ;;;
  post clearChat.

(** [_createConversation]: the request it issues, if any, and how it
    settles. *)
Definition _createConversation (st : State) (w : World)
  : list Request * Outcome any :=
  match getCookie (secrets st) with
  | Some cookie =>
      if Str.isEmpty cookie || negb (ToBoolean (_orgId st))
      then ([], Thrown "Missing cookie or org ID")
      else
        let req :=
          {| method := "POST";
             path := "/api/organizations/" ++ ToString (_orgId st)
                     ++ "/chat_conversations";
             Cookie := cookieHeader cookie;
             Accept := None;
             body := Some (VObject [("uuid", VString (uuid w));
                                    ("name", VString EmptyString)]) |} in
        ([req],
         match chat_conversations w with
         | failed message => Thrown message
         | response res =>
             match finish res with
             | aborted _ => Pending
             | end_ =>
                 let data := collect res in
                 match (parsed <-? JSON_parse data ;;
                        id <-? Get parsed "uuid" ;;
                        Some (if ToBoolean id then Returned id
                              else Thrown ("No UUID in response: " ++ data))) with
                 | Some outcome => outcome
                 | None => Thrown ("Parse error: " ++ data)
                 end
             end
         end)
  | None => ([], Thrown "Missing cookie or org ID")
  end.

(** The three closures [_handleUserMessage] hands to [sendMessage], run on
    the callbacks of one exchange; [fullResponse] is the local they share. *)
Fixpoint deliver (calls : list Callback) (fullResponse : string) : M unit :=
  match calls with
  | [] => ret tt
  | onChunk text :: rest =>
      post (chunk text) ;;;
      deliver rest (fullResponse ++ ToString text)
  | onDone :: rest =>
      st <- get ;;
      modify (set_messages
                (_messages st ++ [{| role := assistant; content := fullResponse |}])%list) ;;;
      post done ;;;
      deliver rest fullResponse
  | onError message :: rest =>
      post (error ("Error: " ++ message)) ;;;
      deliver rest fullResponse
  end.

Definition noCookieText : string :=
  Str.dq "No session cookie set. Click 'Set Cookie' to configure.".

(** The first block of the [try]: resolve the organization unless one is
    cached. *)
Definition ensureOrganization (w : World) : M unit :=
  st <- get ;;
  if negb (ToBoolean (_orgId st)) then
    post (status "Getting organization...") ;;;
    id <- await (getOrganizationId (secrets st) w) ;;
    modify (set_orgId id)
  else ret tt.

(** The second block: create a conversation unless one is active. *)
Definition ensureConversation (w : World) : M unit :=
  st <- get ;;
  if negb (ToBoolean (_conversationId st)) then
    post (status "Starting conversation...") ;;;
    id <- await (_createConversation st w) ;;
    modify (set_conversationId id)
  else ret tt.

(** The rest of the [try]: announce the answer and call [sendMessage]; what
    comes back is the list of callbacks the exchange will make. *)
Definition dispatch (w : World) : M (list Callback) :=
  post startAssistantMessage ;;;
  st <- get ;;
  await (sendMessage (secrets st) (_orgId st) (_conversationId st) (_messages st) w).

(** The [catch] block; no callback is made after it. *)
Definition catchBlock (message : string) : M (list Callback) :=
  post (error ("Error: " ++ message)) ;;; ret [].

(** [_handleUserMessage]. The callbacks of the streaming exchange are made
    after [sendMessage] has returned, outside the [try]. *)
Definition _handleUserMessage (w : World) (text : string) : M unit :=
  if Str.isEmpty (Str.trim text) then ret tt
  else
    st <- get ;;
    if negb (hasCookie (secrets st)) then post (error noCookieText)
    else
      modify (set_messages (_messages st ++ [{| role := user; content := text |}])%list) ;;;
      post (userMessage text) ;;;
      post thinking ;;;
      calls <-
        tryCatch
          (ensureOrganization w ;;; ensureConversation w ;;; dispatch w)
          catchBlock ;;
      deliver calls EmptyString.

(** *** Reading the log *)

Definition posted (log : list Effect) : list WebviewMessage :=
  flat_map (fun e => match e with postMessage m => [m] | request _ => [] end) log.

Definition requests (log : list Effect) : list Request :=
  flat_map (fun e => match e with request r => [r] | postMessage _ => [] end) log.

(** A [done] or an [error] message. *)
Definition isTerminal (m : WebviewMessage) : bool :=
  match m with
  | done | error _ => true
  | _ => false
  end.

Definition terminals (log : list Effect) : list WebviewMessage :=
  filter isTerminal (posted log).

Definition isStatus (m : WebviewMessage) : bool :=
  match m with
  | status _ => true
  | _ => false
  end.

(** The call that resolves the organization, and the call that creates a
    conversation under the organization [orgId]. *)
Definition isOrganizationLookup (r : Request) : bool :=
  String.eqb (method r) "GET" && String.eqb (path r) "/api/organizations".


(** What the closures of [_handleUserMessage] post for a list of callbacks,
    and the assistant messages they append, [fullResponse] being the text
    gathered so far. *)
Definition shown (call : Callback) : WebviewMessage :=
  match call with
  | onChunk text => chunk text
  | onDone => done
  | onError message => error ("Error: " ++ message)
  end.

Fixpoint replies (calls : list Callback) (fullResponse : string) : list Message :=
  match calls with
  | [] => []
  | onChunk text :: rest => replies rest (fullResponse ++ ToString text)
  | onDone :: rest =>
      {| role := assistant; content := fullResponse |} :: replies rest fullResponse
  | onError _ :: rest => replies rest fullResponse
  end.

(** The ways the organization call fails, with the message of the error
    [getOrganizationId] rejects with: no response, a body that is not JSON,
    a body that is not a list, an empty list. *)
Inductive OrganizationLookupFails (w : World) : string -> Prop :=
| lookup_no_response (message : string) :
    organizations w = failed message ->
    OrganizationLookupFails w message
| lookup_unparsable (res : IncomingMessage) :
    organizations w = response res ->
    finish res = end_ ->
    JSON_parse (collect res) = None ->
    OrganizationLookupFails w ("Failed to parse org response: " ++ collect res)
| lookup_not_a_list (res : IncomingMessage) (orgs : any) :
    organizations w = response res ->
    finish res = end_ ->
    JSON_parse (collect res) = Some orgs ->
    asArray orgs = None ->
    OrganizationLookupFails w ("Could not get organization. Response: " ++ collect res)
| lookup_empty_list (res : IncomingMessage) :
    organizations w = response res ->
    finish res = end_ ->
    JSON_parse (collect res) = Some (VArray []) ->
    OrganizationLookupFails w ("Could not get organization. Response: " ++ collect res).

(** The state and the log an operation leaves. *)
Definition stateAfter {A : Type} (c : M A) (st : State) : State := snd (fst (c st)).
Definition logOf {A : Type} (c : M A) (st : State) : list Effect := snd (c st).

End PanelMethods.

(** ** A reference host

    An executable [Host]: numbers are the exact decimals their literals
    denote, and [JSON_parse] reads the JSON grammar. It agrees with the
    engine's [JSON.parse] on every text whose strings stay below U+0100 (a
    [\u] escape above is refused here) and whose numbers have at most 15
    significant digits within the range of a double. *)

Module RefHost.

(** [mantissa * 10 ^ exponent] *)
Record Decimal : Type := { mantissa : Z; exponent : Z }.

Definition isDigit (c : ascii) : bool :=
  let n := nat_of_ascii c in (48 <=? n)%nat && (n <=? 57)%nat.

Definition digitValue (c : ascii) : Z := (Z.of_nat (nat_of_ascii c) - 48)%Z.

Definition hexValue (c : ascii) : option nat :=
  let n := nat_of_ascii c in
  if (48 <=? n)%nat && (n <=? 57)%nat then Some (n - 48)%nat
  else if (65 <=? n)%nat && (n <=? 70)%nat then Some (n - 55)%nat
  else if (97 <=? n)%nat && (n <=? 102)%nat then Some (n - 87)%nat
  else None.

Definition isJsonSpace (c : ascii) : bool :=
  let n := nat_of_ascii c in
  Nat.eqb n 32 || Nat.eqb n 9 || Nat.eqb n 10 || Nat.eqb n 13.

Fixpoint skipSpace (s : string) : string :=
  match s with
  | String c rest => if isJsonSpace c then skipSpace rest else s
  | EmptyString => EmptyString
  end.

(** The longest run of digits at the head: their value read after [acc],
    how many there are, and the rest. *)
Fixpoint digits (acc : Z) (count : nat) (s : string) : Z * nat * string :=
  match s with
  | String c rest =>
      if isDigit c then digits (10 * acc + digitValue c)%Z (S count) rest
      else (acc, count, s)
  | EmptyString => (acc, count, s)
  end.

Definition parseExponent (s : string) : option (Z * string) :=
  match s with
  | String c rest =>
      if Ascii.eqb c "e"%char || Ascii.eqb c "E"%char then
        let '(negative, rest) :=
          match rest with
          | String sign rest' =>
              if Ascii.eqb sign "-"%char then (true, rest')
              else if Ascii.eqb sign "+"%char then (false, rest')
              else (false, rest)
          | EmptyString => (false, rest)
          end in
        match digits 0%Z 0 rest with
        | (_, O, _) => None
        | (e, _, rest) => Some (if negative then Z.opp e else e, rest)
        end
      else Some (0%Z, s)
  | EmptyString => Some (0%Z, s)
  end.

Definition parseNumber (s : string) : option (Decimal * string) :=
  let '(negative, s) :=
    match s with
    | String c rest => if Ascii.eqb c "-"%char then (true, rest) else (false, s)
    | EmptyString => (false, s)
    end in
  intPart <-?
    match s with
    | String c rest =>
        if Ascii.eqb c "0"%char then Some (0%Z, rest)
        else match digits 0%Z 0 s with
             | (_, O, _) => None
             | (m, _, rest) => Some (m, rest)
             end
    | EmptyString => None
    end ;;
  let '(m, s) := intPart in
  fraction <-?
    match s with
    | String c rest =>
        if Ascii.eqb c "."%char then
          match digits m 0 rest with
          | (_, O, _) => None
          | (m', places, rest) => Some (m', Z.of_nat places, rest)
          end
        else Some (m, 0%Z, s)
    | EmptyString => Some (m, 0%Z, s)
    end ;;
  let '(m, places, s) := fraction in
  power <-? parseExponent s ;;
  let '(e, s) := power in
  Some ({| mantissa := if negative then Z.opp m else m;
           exponent := (e - places)%Z |}, s).

(** The characters of a string literal after its opening quote, up to the
    closing one. *)
Fixpoint parseChars (s : string) : option (string * string) :=
  match s with
  | EmptyString => None
  | String c rest =>
      if Ascii.eqb c "034"%char then Some (EmptyString, rest)
      else if Ascii.eqb c "\"%char then
        match rest with
        | String e rest' =>
            let simple (d : ascii) :=
              r <-? parseChars rest' ;; Some (String d (fst r), snd r) in
            if Ascii.eqb e "034"%char then simple "034"%char
            else if Ascii.eqb e "\"%char then simple "\"%char
            else if Ascii.eqb e "/"%char then simple "/"%char
            else if Ascii.eqb e "b"%char then simple "008"%char
            else if Ascii.eqb e "f"%char then simple "012"%char
            else if Ascii.eqb e "n"%char then simple "010"%char
            else if Ascii.eqb e "r"%char then simple "013"%char
            else if Ascii.eqb e "t"%char then simple "009"%char
            else if Ascii.eqb e "u"%char then
              match rest' with
              | String h1 (String h2 (String h3 (String h4 rest''))) =>
                  a <-? hexValue h1 ;; b <-? hexValue h2 ;;
                  c' <-? hexValue h3 ;; d <-? hexValue h4 ;;
                  if Nat.eqb a 0 && Nat.eqb b 0 then
                    r <-? parseChars rest'' ;;
                    Some (String (ascii_of_nat (16 * c' + d)) (fst r), snd r)
                  else None
              | _ => None
              end
            else None
        | EmptyString => None
        end
      else if (nat_of_ascii c <? 32)%nat then None
      else r <-? parseChars rest ;; Some (String c (fst r), snd r)
  end.

Definition any : Type := value Decimal.

Fixpoint parseValue (fuel : nat) (s : string) : option (any * string) :=
  match fuel with
  | O => None
  | S fuel =>
      match skipSpace s with
      | EmptyString => None
      | String c rest as s =>
          if Ascii.eqb c "{"%char then
            match skipSpace rest with
            | String c' rest' as body =>
                if Ascii.eqb c' "}"%char then Some (VObject [], rest')
                else r <-? parseMembers fuel body ;; Some (VObject (fst r), snd r)
            | EmptyString => None
            end
          else if Ascii.eqb c "["%char then
            match skipSpace rest with
            | String c' rest' as body =>
                if Ascii.eqb c' "]"%char then Some (VArray [], rest')
                else r <-? parseElements fuel body ;; Some (VArray (fst r), snd r)
            | EmptyString => None
            end
          else if Ascii.eqb c "034"%char then
            r <-? parseChars rest ;; Some (VString (fst r), snd r)
          else if String.prefix "true" s then Some (VBoolean true, Str.slice 4 s)
          else if String.prefix "false" s then Some (VBoolean false, Str.slice 5 s)
          else if String.prefix "null" s then Some (VNull, Str.slice 4 s)
          else r <-? parseNumber s ;; Some (VNumber (fst r), snd r)
      end
  end
with parseElements (fuel : nat) (s : string) : option (list any * string) :=
  match fuel with
  | O => None
  | S fuel =>
      r <-? parseValue fuel s ;;
      match skipSpace (snd r) with
      | String c rest =>
          if Ascii.eqb c ","%char then
            more <-? parseElements fuel rest ;; Some (fst r :: fst more, snd more)
          else if Ascii.eqb c "]"%char then Some ([fst r], rest)
          else None
      | EmptyString => None
      end
  end
with parseMembers (fuel : nat) (s : string) : option (list (string * any) * string) :=
  match fuel with
  | O => None
  | S fuel =>
      match skipSpace s with
      | String q rest =>
          if Ascii.eqb q "034"%char then
            key <-? parseChars rest ;;
            match skipSpace (snd key) with
            | String colon rest =>
                if Ascii.eqb colon ":"%char then
                  r <-? parseValue fuel rest ;;
                  match skipSpace (snd r) with
                  | String c rest =>
                      if Ascii.eqb c ","%char then
                        more <-? parseMembers fuel rest ;;
                        Some ((fst key, fst r) :: fst more, snd more)
                      else if Ascii.eqb c "}"%char then Some ([(fst key, fst r)], rest)
                      else None
                  | EmptyString => None
                  end
                else None
            | EmptyString => None
            end
          else None
      | EmptyString => None
      end
  end.

Definition parse (text : string) : option any :=
  r <-? parseValue (2 * String.length text + 2) text ;;
  match skipSpace (snd r) with
  | EmptyString => Some (fst r)
  | String _ _ => None
  end.

(** [Number::toString] on an exact decimal. *)
Fixpoint stripZeros (fuel : nat) (m e : Z) : Z * Z :=
  match fuel with
  | O => (m, e)
  | S fuel =>
      if ((m mod 10 =? 0) && negb (m =? 0))%Z
      then stripZeros fuel (m / 10)%Z (e + 1)%Z
      else (m, e)
  end.

Fixpoint zeros (n : nat) : string :=
  match n with
  | O => EmptyString
  | S n' => String "0"%char (zeros n')
  end.

Definition toString (d : Decimal) : string :=
  if (mantissa d =? 0)%Z then "0"
  else
    let magnitude := Z.abs (mantissa d) in
    let '(m, e) :=
      stripZeros (String.length (decimal (Z.to_N magnitude))) magnitude (exponent d) in
    let ds := decimal (Z.to_N m) in
    let k := Z.of_nat (String.length ds) in
    let n := (k + e)%Z in
    (if (mantissa d <? 0)%Z then "-" else EmptyString)
    ++ (if ((k <=? n) && (n <=? 21))%Z then ds ++ zeros (Z.to_nat (n - k))
        else if ((0 <? n) && (n <=? 21))%Z
             then String.substring 0 (Z.to_nat n) ds ++ "." ++ Str.slice (Z.to_nat n) ds
        else if ((-6 <? n) && (n <=? 0))%Z then "0." ++ zeros (Z.to_nat (- n)) ++ ds
        else (if (k =? 1)%Z then ds
              else String.substring 0 1 ds ++ "." ++ Str.slice 1 ds)
             ++ "e" ++ (if (n - 1 <? 0)%Z then "-" else "+")
             ++ decimal (Z.to_N (Z.abs (n - 1)))).

Definition host : Host := {|
  number := Decimal;
  numberToBoolean := fun d => negb (mantissa d =? 0)%Z;
  numberToString := toString;
  JSON_parse := parse
|}.

End RefHost.

(** ** Exchanges to run

    The end-to-end scenario of the specification on the reference host: a
    cookie is stored, the organization resolves to [org-1], the conversation
    is created as [conv-1], and the completion call is answered by a given
    exchange. *)

Module Scenario.

#[local] Existing Instance RefHost.host.

Definition ok (chunks : list string) : Exchange :=
  response {| statusCode := 200; data := chunks; finish := end_ |}.

Definition cut (status : N) (chunks : list string) (message : string) : Exchange :=
  response {| statusCode := status; data := chunks; finish := aborted message |}.

(** A data line with a nested delta envelope, one with a legacy envelope,
    and the terminator line. *)
Definition deltaLine (text : string) : string :=
  Str.line (Str.dq "data: {'type':'content_block_delta','delta':{'type':'text_delta','text':'"
            ++ text ++ Str.dq "'}}").

Definition legacyLine (text : string) : string :=
  Str.line (Str.dq "data: {'completion':'" ++ text ++ Str.dq "'}").

Definition doneLine : string := Str.line "data: [DONE]".

Definition world (stream : Exchange) : World := {|
  organizations := ok [Str.dq "[{'uuid':'org-1'}]"];
  chat_conversations := ok [Str.dq "{'uuid':'conv-1'}"];
  completion := stream;
  uuid := "3f2b8c1e-7a4d-4e59-9b06-5d1c2a7e8f40";
  timeZone := "Europe/Paris"
|}.

(** A panel just opened, with a cookie stored or not. *)
Definition opened (cookie : SecretStorage) : State := {|
  secrets := cookie;
  _messages := [];
  _orgId := VUndefined;
  _conversationId := VUndefined
|}.

(** A panel in the middle of a conversation. *)
Definition talking : State := {|
  secrets := Some "sessionKey=sk-ant-sid01";
  _messages := [{| role := user; content := "hi" |};
                {| role := assistant; content := "Hello" |}];
  _orgId := VString "org-1";
  _conversationId := VString "conv-1"
|}.

(** The stream of the scenario: two deltas, then the terminator. *)
Definition hello : list string := [deltaLine "Hel"; deltaLine "lo"; doneLine].

(** The same remote side, with an account that belongs to no organization. *)
Definition noOrganization : World := {|
  organizations := ok ["[]"];
  chat_conversations := ok [Str.dq "{'uuid':'conv-1'}"];
  completion := ok hello;
  uuid := "3f2b8c1e-7a4d-4e59-9b06-5d1c2a7e8f40";
  timeZone := "Europe/Paris"
|}.

End Scenario.

(** ** Identifiers: [generateUUID] of the client, [_generateUUID] of the panel

    The two methods have the same body. [random i] is the value of
    [(Math.random() * 16) | 0] at the [i]-th call of the replacer, which
    [replace] makes once per [x] or [y] of the template, from left to right. *)

Module Uuid.

Definition hexDigit (v : N) : ascii :=
  ascii_of_N (if (v <? 10)%N then 48 + v else 87 + v).

(** [v.toString(16)] *)
Fixpoint toString16From (fuel : nat) (v : N) (low : string) : string :=
  match fuel with
  | O => low
  | S fuel' =>
      if (v <? 16)%N then String (hexDigit v) low
      else toString16From fuel' (v / 16) (String (hexDigit (v mod 16)) low)
  end.

Definition toString16 (v : N) : string :=
  toString16From (S (N.to_nat (N.size v))) v EmptyString.

Definition template : string := "xxxxxxxx-xxxx-4xxx-yxxx-xxxxxxxxxxxx".

(** [text.replace(/[xy]/g, replacer)], [i] calls of the replacer made so far. *)
Fixpoint replaceXY (text : string) (random : nat -> N) (i : nat) : string :=
  match text with
  | EmptyString => EmptyString
  | String c rest =>
      if Ascii.eqb c "x"%char then
        toString16 (random i) ++ replaceXY rest random (S i)
      else if Ascii.eqb c "y"%char then
        toString16 (N.lor (N.land (random i) 3) 8) ++ replaceXY rest random (S i)
      else String c (replaceXY rest random i)
  end.

Definition generateUUID (random : nat -> N) : string :=
  replaceXY template random 0.

(** The shape of a version 4 identifier: in the pattern, [h] stands for a
    lower-case hexadecimal digit, [v] for one of [8], [9], [a], [b], and any
    other character for itself. *)
Definition isHex (c : ascii) : bool :=
  let n := nat_of_ascii c in
  ((48 <=? n)%nat && (n <=? 57)%nat) || ((97 <=? n)%nat && (n <=? 102)%nat).

Definition isVariant (c : ascii) : bool :=
  Ascii.eqb c "8"%char || Ascii.eqb c "9"%char
  || Ascii.eqb c "a"%char || Ascii.eqb c "b"%char.

Fixpoint hasShape (pattern text : string) : bool :=
  match pattern, text with
  | EmptyString, EmptyString => true
  | String p pattern', String c text' =>
      (if Ascii.eqb p "h"%char then isHex c
       else if Ascii.eqb p "v"%char then isVariant c
       else Ascii.eqb p c)
      && hasShape pattern' text'
  | _, _ => false
  end.

Definition isVersion4 (text : string) : bool :=
  hasShape "hhhhhhhh-hhhh-4hhh-vhhh-hhhhhhhhhhhh" text.

End Uuid.

(** ** The webview script: [escapeHtml] *)

Module Markup.

(** [text.replace(/c/g, replacement)] for a one-character pattern and a
    replacement with no [$] in it. *)
Fixpoint replaceAll (c : ascii) (replacement text : string) : string :=
  match text with
  | EmptyString => EmptyString
  | String d rest =>
      if Ascii.eqb d c then replacement ++ replaceAll c replacement rest
      else String d (replaceAll c replacement rest)
  end.

Definition escapeHtml (text : string) : string :=
  replaceAll "034"%char "&quot;"
    (replaceAll ">"%char "&gt;"
       (replaceAll "<"%char "&lt;"
          (replaceAll "&"%char "&amp;" text))).

(** What one character becomes. *)
Definition entity (c : ascii) : string :=
  if Ascii.eqb c "&"%char then "&amp;"
  else if Ascii.eqb c "<"%char then "&lt;"
  else if Ascii.eqb c ">"%char then "&gt;"
  else if Ascii.eqb c "034"%char then "&quot;"
  else String c EmptyString.

Fixpoint escapeEach (text : string) : string :=
  match text with
  | EmptyString => EmptyString
  | String c rest => entity c ++ escapeEach rest
  end.

(** One of the four characters that [escapeHtml] rewrites. *)
Definition isMarkup (c : ascii) : bool :=
  Ascii.eqb c "&"%char || Ascii.eqb c "<"%char
  || Ascii.eqb c ">"%char || Ascii.eqb c "034"%char.

Fixpoint hasMarkup (text : string) : bool :=
  match text with
  | EmptyString => false
  | String c rest => isMarkup c || hasMarkup rest
  end.

End Markup.

(** ** What reaches the panel: messages of the webview, commands of the extension *)

Module Incoming.

(** A message posted by the webview script: [{ type, text }]. *)
Record t : Type := { type : string; text : string }.

End Incoming.

Section Events.

Context {host : Host}.

Definition set_secrets (s : SecretStorage) (st : State) : State :=
  {| secrets := s; _messages := _messages st;
     _orgId := _orgId st; _conversationId := _conversationId st |}.

(** The [claudeWebChat.setCookie] command of [extension.ts]: [input] is what
    the input box returns, [None] when it is dismissed. The notifications
    of the host window are left out of the log. *)
Definition setCookieCommand (input : option string) : M unit :=
  match input with
  | Some cookie =>
      if Str.isEmpty cookie then ret tt
      else st <- get ;; modify (set_secrets (setCookie cookie (secrets st)))
  | None => ret tt
  end.

(** The [claudeWebChat.clearCookie] command. *)
Definition clearCookieCommand : M unit :=
  st <- get ;; modify (set_secrets (clearCookie (secrets st))).

(** The listener the constructor of the panel gives [onDidReceiveMessage]. *)
Definition onDidReceiveMessage (message : Incoming.t) (w : World)
    (input : option string) : M unit :=
  if String.eqb (Incoming.type message) "sendMessage" then
    _handleUserMessage w (Incoming.text message)
  else if String.eqb (Incoming.type message) "newConversation" then
    _startNewConversation
  else if String.eqb (Incoming.type message) "setCookie" then
    setCookieCommand input ;;; _checkCookieStatus
  else ret tt.

(** One thing that happens to an open panel: a message of the webview (with
    the answers of the remote side and of the input box, should the
    listener ask for them), or a cookie command run from the palette. *)
Inductive Event : Type :=
| fromWebview (message : Incoming.t) (w : World) (input : option string)
| runSetCookie (input : option string)
| runClearCookie.

Definition perform (e : Event) : M unit :=
  match e with
  | fromWebview message w input => onDidReceiveMessage message w input
  | runSetCookie input => setCookieCommand input
  | runClearCookie => clearCookieCommand
  end.

(** Events handled one after the other, each handler running as far as it
    gets: the state at the end and everything logged. *)
Fixpoint performAll (events : list Event) (st : State) : State * list Effect :=
  match events with
  | [] => (st, [])
  | e :: rest =>
      let '(st', log') := performAll rest (stateAfter (perform e) st) in
      (st', (logOf (perform e) st ++ log')%list)
  end.

(** An event that can write the cookie store. *)
Definition writesCookie (e : Event) : bool :=
  match e with
  | fromWebview message _ _ => String.eqb (Incoming.type message) "setCookie"
  | runSetCookie _ | runClearCookie => true
  end.

(** *** Reading the requests and the callbacks *)

(** The place of a request in the bootstrap: the organization lookup, the
    creation of a conversation, the completion call. *)
Definition stage (r : Request) : nat :=
  if isOrganizationLookup r then 0
  else match Accept r with
       | None => 1
       | Some _ => 2
       end.

Fixpoint ascending (l : list nat) : bool :=
  match l with
  | a :: (b :: _) as rest => (a <? b)%nat && ascending rest
  | _ => true
  end.


Definition isAssistant (m : Message) : bool :=
  match role m with
  | assistant => true
  | user => false
  end.

(** The organization call is answered by a list whose first entry, not
    [null], has [id] under [uuid] ([undefined] when it has none). *)
Inductive OrganizationResolves (w : World) (id : any) : Prop :=
| resolves (res : IncomingMessage) (first : any) (others : list any) :
    organizations w = response res ->
    finish res = end_ ->
    JSON_parse (collect res) = Some (VArray (first :: others)) ->
    Get first "uuid" = Some id ->
    OrganizationResolves w id.


End Events.

(** ** Texts made of lines *)

(** Some lines, each followed by the same line ending. *)
Fixpoint withEndings (ending : string) (lines : list string) : string :=
  match lines with
  | [] => EmptyString
  | l :: rest => l ++ ending ++ withEndings ending rest
  end.

Definition CR : string := String "013" EmptyString.

Definition CRLF : string := String "013" (String Str.LF EmptyString).

(** ** The script of the webview

    The variables of the script, the two properties of the page it reads back
    or sets directly (the value of [#message-input], [disabled] of
    [#send-btn]), and, in order, the calls it makes to its helpers and the
    writes it makes to the bubble. What the helpers do to the page is left
    out; [currentAssistantBubble] is the element [createAssistantBubble]
    returns or [null], of which the script tests only which of the two it
    is. *)

Module Webview.

Record t : Type := {
  isWaiting : bool;
  currentAssistantBubble : bool;
  currentAssistantText : string;
  input : string;
  sendDisabled : bool
}.

Inductive Dom : Type :=
| toggleBannerHidden (force : bool)
| removeThinking
| appendMessage (r : Role) (text : string)
| appendThinking
| updateThinkingText (text : string)
| createAssistantBubble
| setTextContent (text : string)
| setInnerHTML_renderMarkdown (text : string)
| scrollToBottom
| appendError (text : string)
| resetChat
| autoResize.

Section Script.

Context {host : Host}.

(** The ['message'] listener of the window, for the messages the panel
    posts. *)
Definition onMessage (msg : WebviewMessage) (wv : t) : t * list Dom :=
  match msg with
  | cookieStatus has => (wv, [toggleBannerHidden has])
  | userMessage text => (wv, [removeThinking; appendMessage user text])
  | thinking => (wv, [appendThinking])
  | status text => (wv, [updateThinkingText text])
  | startAssistantMessage =>
      ({| isWaiting := isWaiting wv;
          currentAssistantBubble := true;
          currentAssistantText := EmptyString;
          input := input wv;
          sendDisabled := sendDisabled wv |},
       [removeThinking; createAssistantBubble])
  | chunk text =>
      let currentAssistantText := currentAssistantText wv ++ ToString text in
      ({| isWaiting := isWaiting wv;
          currentAssistantBubble := currentAssistantBubble wv;
          currentAssistantText := currentAssistantText;
          input := input wv;
          sendDisabled := sendDisabled wv |},
       if currentAssistantBubble wv
       then [setTextContent currentAssistantText; scrollToBottom]
       else [])
  | done =>
      if currentAssistantBubble wv then
        ({| isWaiting := false;
            currentAssistantBubble := false;
            currentAssistantText := EmptyString;
            input := input wv;
            sendDisabled := false |},
         [setInnerHTML_renderMarkdown (currentAssistantText wv); scrollToBottom])
      else
        ({| isWaiting := false;
            currentAssistantBubble := false;
            currentAssistantText := currentAssistantText wv;
            input := input wv;
            sendDisabled := false |},
         [scrollToBottom])
  | error text =>
      ({| isWaiting := false;
          currentAssistantBubble := currentAssistantBubble wv;
          currentAssistantText := currentAssistantText wv;
          input := input wv;
          sendDisabled := false |},
       [removeThinking; appendError text])
  | clearChat => (wv, [resetChat])
  end.

(** The messages of the panel, received in order. *)
Fixpoint onMessages (msgs : list WebviewMessage) (wv : t) : t * list Dom :=
  match msgs with
  | [] => (wv, [])
  | msg :: rest =>
      let '(wv1, dom1) := onMessage msg wv in
      let '(wv2, dom2) := onMessages rest wv1 in
      (wv2, (dom1 ++ dom2)%list)
  end.

End Script.

(** [sendMessage()] of the script: the message it posts to the panel, if
    any. *)
Definition sendMessage (wv : t) : t * list Dom * option Incoming.t :=
  if isWaiting wv then (wv, [], None)
  else
    let text := Str.trim (input wv) in
    if Str.isEmpty text then (wv, [], None)
    else
      ({| isWaiting := true;
          currentAssistantBubble := currentAssistantBubble wv;
          currentAssistantText := currentAssistantText wv;
          input := EmptyString;
          sendDisabled := true |},
       [autoResize],
       Some {| Incoming.type := "sendMessage"; Incoming.text := text |}).

End Webview.

(** ** The chunks as they arrive: [Buffer]s

    The ['data'] listener gets a [Buffer] and appends [chunk.toString()], the
    UTF-8 decoding of that one [Buffer], to its text. *)

Module Buffer.

Definition t : Type := list Byte.byte.

(** [chunk.toString()], where the text it yields is a string of this
    development (code units below U+0100): a byte below 0x80 is its
    character, the lead bytes 0xC2 and 0xC3 with one continuation byte are
    the characters U+0080 to U+00FF. For any other [Buffer] the decoder
    yields a code unit from U+0100 up (a character encoded on more bytes, or
    U+FFFD for a sequence that is malformed or cut short), which is [None]
    here. *)
Fixpoint toString (bytes : t) : option string :=
  match bytes with
  | [] => Some EmptyString
  | lead :: rest =>
      let n := Byte.to_N lead in
      if (n <? 128)%N then
        text <-? toString rest ;; Some (String (ascii_of_N n) text)
      else if (n =? 194)%N || (n =? 195)%N then
        match rest with
        | continuation :: rest' =>
            let m := Byte.to_N continuation in
            if (128 <=? m)%N && (m <? 192)%N then
              text <-? toString rest' ;;
              Some (String (ascii_of_N ((n - 192) * 64 + (m - 128))) text)
            else None
        | [] => None
        end
      else None
  end.

(** The texts of the chunks of a response, each decoded on its own. *)
Fixpoint texts (chunks : list t) : option (list string) :=
  match chunks with
  | [] => Some []
  | bytes :: rest =>
      text <-? toString bytes ;;
      others <-? texts rest ;;
      Some (text :: others)
  end.

End Buffer.

Section Buffers.

Context {host : Host}.

(** The ['data'] events of one response on the [Buffer]s themselves. *)
Definition onDataBuffers (buffer : string) (chunks : list Buffer.t)
  : option (list Callback) :=
  decoded <-? Buffer.texts chunks ;; Some (onDataEvents buffer decoded).

End Buffers.

(** ** A prompt in flight

    [_handleUserMessage] is suspended while the organization lookup and the
    creation of the conversation are on the network, and it has returned
    when the events of the response arrive; the listeners of the panel run
    in between. [during p] is what they do while the handler waits at [p];
    what comes of it does not reach the handler. The reads of the secret
    storage are taken as immediate. *)

Inductive Await : Type :=
| awaitOrganizationId
| awaitCreateConversation
| awaitResponse.

Section InFlight.

Context {host : Host}.

Variable during : Await -> M unit.

Definition meanwhile (p : Await) : M unit :=
  fun st => let '(_, st', log) := during p st in (Returned tt, st', log).

(** An awaited call: its requests go out, the other listeners run while the
    exchange is on the network (if there is one), then the call settles. *)
Definition awaitWhile {A : Type} (p : Await) (call : list Request * Outcome A)
  : M A :=
  await (fst call, Returned tt) ;;;
  match fst call with
  | [] => ret tt
  | _ :: _ => meanwhile p
  end ;;;
  await ([], snd call).

Definition ensureOrganizationWhile (w : World) : M unit :=
  st <- get ;;
  if negb (ToBoolean (_orgId st)) then
    post (status "Getting organization...") ;;;
    id <- awaitWhile awaitOrganizationId (getOrganizationId (secrets st) w) ;;
    modify (set_orgId id)
  else ret tt.

Definition ensureConversationWhile (w : World) : M unit :=
  st <- get ;;
  if negb (ToBoolean (_conversationId st)) then
    post (status "Starting conversation...") ;;;
    id <- awaitWhile awaitCreateConversation (_createConversation st w) ;;
    modify (set_conversationId id)
  else ret tt.

(** [_handleUserMessage] with the other listeners running at its awaits. *)
Definition _handleUserMessageWhile (w : World) (text : string) : M unit :=
  if Str.isEmpty (Str.trim text) then ret tt
  else
    st <- get ;;
    if negb (hasCookie (secrets st)) then post (error noCookieText)
    else
      modify (set_messages (_messages st ++ [{| role := user; content := text |}])%list) ;;;
      post (userMessage text) ;;;
      post thinking ;;;
      calls <-
        tryCatch
          (ensureOrganizationWhile w ;;;
           ensureConversationWhile w ;;;
           calls <- dispatch w ;;
           meanwhile awaitResponse ;;;
           ret calls)
          catchBlock ;;
      deliver calls EmptyString.

End InFlight.

Section Resets.

Context {host : Host}.

(** Nothing else happens while the handler waits. *)
Definition undisturbed : Await -> M unit := fun _ => ret tt.

(** The webview posts [newConversation] while the handler waits at [p]. *)
Definition resetAt (p : Await) : Await -> M unit :=
  fun q =>
    match p, q with
    | awaitOrganizationId, awaitOrganizationId
    | awaitCreateConversation, awaitCreateConversation
    | awaitResponse, awaitResponse => _startNewConversation
    | _, _ => ret tt
    end.

End Resets.

(** * Properties *)

Unset Implicit Arguments.

(** ** Trimming *)

Lemma trimStart_blank (s : string) :
  Str.isBlank s = true -> Str.trimStart s = EmptyString.
Proof.
  induction s as [|c s IH]; simpl; [reflexivity|].
  destruct (Str.isWhiteSpace c); simpl; [exact IH | discriminate].
Qed.

Lemma trimStart_nonblank (s : string) :
  Str.isBlank s = false ->
  exists c rest, Str.trimStart s = String c rest /\ Str.isWhiteSpace c = false.
Proof.
  induction s as [|c s IH]; simpl; [discriminate|].
  destruct (Str.isWhiteSpace c) eqn:Hc; simpl.
  - exact IH.
  - intros _. exists c, s. split; [reflexivity | exact Hc].
Qed.

Lemma trimEnd_keeps_head (c : ascii) (s : string) :
  Str.isWhiteSpace c = false -> Str.isEmpty (Str.trimEnd (String c s)) = false.
Proof.
  intros Hc. simpl. destruct (Str.trimEnd s); [rewrite Hc|]; reflexivity.
Qed.

(** [!text.trim()] holds exactly of the blank texts. *)
Lemma trim_isEmpty (s : string) : Str.isEmpty (Str.trim s) = Str.isBlank s.
Proof.
  unfold Str.trim. destruct (Str.isBlank s) eqn:Hb.
  - rewrite (trimStart_blank s Hb). reflexivity.
  - destruct (trimStart_nonblank s Hb) as (c & rest & -> & Hc).
    apply trimEnd_keeps_head, Hc.
Qed.

Lemma trim_blank (s : string) : Str.isBlank s = true -> Str.trim s = EmptyString.
Proof.
  intros Hb. pose proof (trim_isEmpty s) as H. rewrite Hb in H.
  destruct (Str.trim s); [reflexivity | discriminate].
Qed.

(** ** Splitting into lines *)

Lemma split_nonempty (sep : ascii) (s : string) : Str.split sep s <> [].
Proof.
  induction s as [|c s IH]; simpl; [discriminate|].
  destruct (Ascii.eqb c sep); [discriminate|].
  destruct (Str.split sep s); discriminate.
Qed.

Lemma removelast_cons {A : Type} (x : A) (l : list A) :
  l <> [] -> removelast (x :: l) = x :: removelast l.
Proof. destruct l; [contradiction | reflexivity]. Qed.

Lemma last_cons {A : Type} (x d : A) (l : list A) :
  l <> [] -> last (x :: l) d = last l d.
Proof. destruct l; [contradiction | reflexivity]. Qed.

Lemma last_app_nonempty {A : Type} (l1 l2 : list A) (d : A) :
  l2 <> [] -> last (l1 ++ l2) d = last l2 d.
Proof.
  intros Hne. induction l1 as [|x l1 IH]; [reflexivity|].
  rewrite <- app_comm_cons, last_cons; [exact IH|].
  destruct l1; [exact Hne | discriminate].
Qed.

(** Splitting a text that continues: the complete pieces of the first part
    stay, and its last piece is split again with what follows. *)
Lemma split_app (sep : ascii) (a b : string) :
  Str.split sep (a ++ b)
  = (removelast (Str.split sep a)
     ++ Str.split sep (last (Str.split sep a) EmptyString ++ b))%list.
Proof.
  induction a as [|c a IH]; [reflexivity|].
  simpl. destruct (Ascii.eqb c sep) eqn:Hc.
  - rewrite IH, removelast_cons, last_cons by apply split_nonempty. reflexivity.
  - rewrite IH. pose proof (split_nonempty sep a) as Hne.
    destruct (Str.split sep a) as [|piece pieces]; [contradiction|].
    destruct pieces as [|piece' pieces].
    + simpl. rewrite Hc. reflexivity.
    + reflexivity.
Qed.

(** The last piece holds no separator. *)
Lemma split_last (sep : ascii) (s : string) :
  Str.split sep (last (Str.split sep s) EmptyString)
  = [last (Str.split sep s) EmptyString].
Proof.
  induction s as [|c s IH]; [reflexivity|].
  simpl. destruct (Ascii.eqb c sep) eqn:Hc.
  - rewrite last_cons by apply split_nonempty. exact IH.
  - pose proof (split_nonempty sep s) as Hne.
    destruct (Str.split sep s) as [|piece pieces]; [contradiction|].
    destruct pieces as [|piece' pieces].
    + simpl in *. rewrite Hc, IH. reflexivity.
    + exact IH.
Qed.

Lemma append_empty_r (s : string) : s ++ EmptyString = s.
Proof. induction s as [|c s IH]; simpl; [|rewrite IH]; reflexivity. Qed.

Lemma append_assoc (a b c : string) : (a ++ b) ++ c = a ++ (b ++ c).
Proof. induction a as [|x a IH]; simpl; [|rewrite IH]; reflexivity. Qed.

Section Properties.

Context {host : Host}.

(** ** Running the monad *)

Lemma bind_Returned {A B : Type} (c : M A) (k : A -> M B)
    (st st1 st2 : State) (a : A) (o : Outcome B) (log1 log2 : list Effect) :
  c st = (Returned a, st1, log1) ->
  k a st1 = (o, st2, log2) ->
  bind c k st = (o, st2, (log1 ++ log2)%list).
Proof. intros Hc Hk. unfold bind. rewrite Hc, Hk. reflexivity. Qed.

Lemma bind_Thrown {A B : Type} (c : M A) (k : A -> M B)
    (st st1 : State) (message : string) (log1 : list Effect) :
  c st = (Thrown message, st1, log1) ->
  bind c k st = (Thrown message, st1, log1).
Proof. intros Hc. unfold bind. rewrite Hc. reflexivity. Qed.

Lemma bind_Pending {A B : Type} (c : M A) (k : A -> M B)
    (st st1 : State) (log1 : list Effect) :
  c st = (Pending, st1, log1) ->
  bind c k st = (Pending, st1, log1).
Proof. intros Hc. unfold bind. rewrite Hc. reflexivity. Qed.

Lemma tryCatch_Returned {A : Type} (c : M A) (handler : string -> M A)
    (st st1 : State) (a : A) (log1 : list Effect) :
  c st = (Returned a, st1, log1) ->
  tryCatch c handler st = (Returned a, st1, log1).
Proof. intros Hc. unfold tryCatch. rewrite Hc. reflexivity. Qed.

Lemma tryCatch_Thrown {A : Type} (c : M A) (handler : string -> M A)
    (st st1 st2 : State) (message : string) (o : Outcome A)
    (log1 log2 : list Effect) :
  c st = (Thrown message, st1, log1) ->
  handler message st1 = (o, st2, log2) ->
  tryCatch c handler st = (o, st2, (log1 ++ log2)%list).
Proof. intros Hc Hh. unfold tryCatch. rewrite Hc, Hh. reflexivity. Qed.

Lemma tryCatch_Pending {A : Type} (c : M A) (handler : string -> M A)
    (st st1 : State) (log1 : list Effect) :
  c st = (Pending, st1, log1) ->
  tryCatch c handler st = (Pending, st1, log1).
Proof. intros Hc. unfold tryCatch. rewrite Hc. reflexivity. Qed.

Lemma set_messages_same (st : State) : set_messages (_messages st) st = st.
Proof. destruct st; reflexivity. Qed.

(** The closures never throw: they post one message per callback and append
    one assistant message per [onDone]. *)
Lemma deliver_eq (calls : list Callback) (fullResponse : string) (st : State) :
  deliver calls fullResponse st
  = (Returned tt,
     set_messages (_messages st ++ replies calls fullResponse)%list st,
     map (fun call => postMessage (shown call)) calls).
Proof.
  revert fullResponse st.
  induction calls as [|call calls IH]; intros fullResponse st.
  - simpl. rewrite app_nil_r, set_messages_same. reflexivity.
  - destruct call as [text| |message]; simpl; unfold bind, post, get, modify;
      rewrite IH; simpl.
    + reflexivity.
    + rewrite <- app_assoc. reflexivity.
    + reflexivity.
Qed.

(** *** The blocks of the [try] *)

Lemma ensureOrganization_cached (w : World) (st : State) :
  ToBoolean (_orgId st) = true ->
  ensureOrganization w st = (Returned tt, st, []).
Proof.
  intros H. unfold ensureOrganization, bind, get. simpl. rewrite H. reflexivity.
Qed.

Lemma ensureOrganization_lookup (w : World) (st : State) :
  ToBoolean (_orgId st) = false ->
  ensureOrganization w st
  = let call := getOrganizationId (secrets st) w in
    (match snd call with
     | Returned _ => Returned tt
     | Thrown message => Thrown message
     | Pending => Pending
     end,
     match snd call with
     | Returned id => set_orgId id st
     | _ => st
     end,
     postMessage (status "Getting organization...") :: map request (fst call)).
Proof.
  intros H. unfold ensureOrganization, bind, get, post, await, modify. simpl.
  rewrite H. simpl.
  destruct (snd (getOrganizationId (secrets st) w)); simpl;
    rewrite ?app_nil_r; reflexivity.
Qed.

Lemma ensureConversation_active (w : World) (st : State) :
  ToBoolean (_conversationId st) = true ->
  ensureConversation w st = (Returned tt, st, []).
Proof.
  intros H. unfold ensureConversation, bind, get. simpl. rewrite H. reflexivity.
Qed.

Lemma ensureConversation_create (w : World) (st : State) :
  ToBoolean (_conversationId st) = false ->
  ensureConversation w st
  = let call := _createConversation st w in
    (match snd call with
     | Returned _ => Returned tt
     | Thrown message => Thrown message
     | Pending => Pending
     end,
     match snd call with
     | Returned id => set_conversationId id st
     | _ => st
     end,
     postMessage (status "Starting conversation...") :: map request (fst call)).
Proof.
  intros H. unfold ensureConversation, bind, get, post, await, modify. simpl.
  rewrite H. simpl.
  destruct (snd (_createConversation st w)); simpl;
    rewrite ?app_nil_r; reflexivity.
Qed.

Lemma dispatch_eq (w : World) (st : State) :
  dispatch w st
  = let call := sendMessage (secrets st) (_orgId st) (_conversationId st)
                  (_messages st) w in
    (snd call, st, postMessage startAssistantMessage :: map request (fst call)).
Proof.
  unfold dispatch, bind, get, post, await. simpl.
  destruct (snd (sendMessage _ _ _ _ _)); reflexivity.
Qed.

(** The first guard lets a non-blank prompt through to the cookie check. *)
Lemma handle_nonblank (w : World) (text : string) :
  Str.isBlank text = false ->
  _handleUserMessage w text
  = (st <- get ;;
     if negb (hasCookie (secrets st)) then post (error noCookieText)
     else
       modify (set_messages
                 (_messages st ++ [{| role := user; content := text |}])%list) ;;;
       post (userMessage text) ;;;
       post thinking ;;;
       calls <-
         tryCatch (ensureOrganization w ;;; ensureConversation w ;;; dispatch w)
           catchBlock ;;
       deliver calls EmptyString).
Proof.
  intros Hb. unfold _handleUserMessage. rewrite trim_isEmpty, Hb. reflexivity.
Qed.

(** A prompt that passes both guards: the user message is appended and
    announced, then the [try] runs, then the callbacks are delivered. *)
Lemma handle_accepted (w : World) (st : State) (text : string) :
  Str.isBlank text = false ->
  hasCookie (secrets st) = true ->
  _handleUserMessage w text st
  = let st1 := set_messages
                 (_messages st ++ [{| role := user; content := text |}])%list st in
    match tryCatch (ensureOrganization w ;;; ensureConversation w ;;; dispatch w)
            catchBlock st1 with
    | (Returned calls, st2, log) =>
        (Returned tt,
         set_messages (_messages st2 ++ replies calls EmptyString)%list st2,
         postMessage (userMessage text) :: postMessage thinking
         :: (log ++ map (fun call => postMessage (shown call)) calls)%list)
    | (Thrown message, st2, log) =>
        (Thrown message, st2,
         postMessage (userMessage text) :: postMessage thinking :: log)
    | (Pending, st2, log) =>
        (Pending, st2,
         postMessage (userMessage text) :: postMessage thinking :: log)
    end.
Proof.
  intros Htext Hcookie. rewrite (handle_nonblank w text Htext).
  unfold bind at 1. unfold get at 1. cbv beta iota. rewrite Hcookie.
  cbn [negb]. cbv beta iota.
  unfold bind at 1. unfold modify at 1. cbv beta iota zeta.
  unfold bind at 1. unfold post at 1. cbv beta iota zeta.
  unfold bind at 1. unfold post at 1. cbv beta iota zeta.
  unfold bind at 1.
  destruct (tryCatch _ _ _) as [[[calls|message|] st2] log]; simpl; try reflexivity.
  rewrite deliver_eq. reflexivity.
Qed.

(** ** The guards of [_handleUserMessage] *)

(** C9. A prompt that is empty or all whitespace is a no-op: the call
    returns normally, the state is the one it started from, and the log is
    empty (no message to the webview, no request). *)
Theorem blank_prompt_is_noop (w : World) (st : State) (text : string) :
  Str.isBlank text = true ->
  _handleUserMessage w text st = (Returned tt, st, []).
Proof.
  intros Hb. unfold _handleUserMessage.
  rewrite trim_isEmpty, Hb. reflexivity.
Qed.

(** C6. With a non-blank prompt and no cookie in the store, the call posts
    one [error] message and does nothing else: no request, no other message,
    the state (history, organization, conversation) as it was. *)
Theorem no_cookie_single_error (w : World) (st : State) (text : string) :
  Str.isBlank text = false ->
  hasCookie (secrets st) = false ->
  _handleUserMessage w text st
  = (Returned tt, st, [postMessage (error noCookieText)]).
Proof.
  intros Htext Hno. rewrite (handle_nonblank w text Htext).
  unfold bind, get. simpl. rewrite Hno. reflexivity.
Qed.

(** C10. A cookie made of whitespace only is stored as the empty string,
    which [hasCookie] reports as absent, the same answer as after
    [clearCookie]: the status check posts [cookieStatus false], and a prompt
    sent next stops at the cookie check with the [error] message and issues
    no request. *)
Theorem blank_cookie_is_no_cookie (s : string) (secrets0 : SecretStorage) :
  Str.isBlank s = true ->
  getCookie (setCookie s secrets0) = Some EmptyString
  /\ hasCookie (setCookie s secrets0) = false
  /\ hasCookie (setCookie s secrets0) = hasCookie (clearCookie secrets0)
  /\ forall (w : World) (st : State) (text : string),
       secrets st = setCookie s secrets0 ->
       _checkCookieStatus st = (Returned tt, st, [postMessage (cookieStatus false)])
       /\ (Str.isBlank text = false ->
           _handleUserMessage w text st
           = (Returned tt, st, [postMessage (error noCookieText)])).
Proof.
  intros Hb. unfold setCookie, clearCookie, hasCookie, noCookie, getCookie.
  rewrite (trim_blank s Hb). do 3 (split; [reflexivity|]).
  intros w st text Hst. split.
  - unfold _checkCookieStatus, bind, get, post. simpl. rewrite Hst. reflexivity.
  - intros Htext. rewrite (handle_nonblank w text Htext).
    unfold bind, get. simpl. rewrite Hst. reflexivity.
Qed.

(** ** Starting a new conversation *)

Lemma requests_shown (calls : list Callback) :
  requests (map (fun call => postMessage (shown call)) calls) = [].
Proof. induction calls as [|call calls IH]; [reflexivity | exact IH]. Qed.

Lemma hasCookie_inv (secrets0 : SecretStorage) :
  hasCookie secrets0 = true ->
  exists cookie, secrets0 = Some cookie /\ Str.isEmpty cookie = false.
Proof.
  unfold hasCookie, noCookie, getCookie. destruct secrets0 as [cookie|]; [|discriminate].
  destruct (Str.isEmpty cookie) eqn:H; [discriminate|]. intros _. exists cookie. auto.
Qed.

Lemma lastOf_snoc {A : Type} (l : list A) (x : A) : lastOf (l ++ [x]) = Some x.
Proof.
  induction l as [|y l IH]; [reflexivity|].
  simpl. destruct (l ++ [x])%list eqn:E; [destruct l; discriminate | exact IH].
Qed.




(** ** A failed organization lookup *)

Lemma getOrganizationId_fails (w : World) (secrets0 : SecretStorage)
    (message : string) :
  hasCookie secrets0 = true ->
  OrganizationLookupFails w message ->
  exists lookup,
    getOrganizationId secrets0 w = ([lookup], Thrown message)
    /\ isOrganizationLookup lookup = true.
Proof.
  intros Hcookie Hfail.
  destruct (hasCookie_inv _ Hcookie) as (cookie & -> & Hne).
  unfold getOrganizationId, getCookie. rewrite Hne.
  exists {| method := "GET"; path := "/api/organizations";
            Cookie := cookieHeader cookie; Accept := None; body := None |}.
  split; [|reflexivity]. f_equal.
  destruct Hfail as [m H | res H Hend Hparse | res orgs H Hend Hparse Hlist
                    | res H Hend Hparse];
    rewrite H; try rewrite Hend; try rewrite Hparse; simpl;
    try rewrite Hlist; reflexivity.
Qed.

(** C5, as the code has it. When no organization is cached and the lookup
    fails (no response, a body that does not parse, not a list, or an empty
    list), the user message has already been appended to the history and
    announced with [userMessage] and [thinking]; the call then posts the
    status line, issues the lookup, and ends with one [error] message.
    Nothing else changes: the organization and the conversation stay
    unset, and no further request is made. *)
Theorem organization_failure_after_user_message
    (w : World) (st : State) (text message : string) :
  Str.isBlank text = false ->
  hasCookie (secrets st) = true ->
  ToBoolean (_orgId st) = false ->
  OrganizationLookupFails w message ->
  exists lookup,
    isOrganizationLookup lookup = true
    /\ _handleUserMessage w text st
       = (Returned tt,
          set_messages (_messages st ++ [{| role := user; content := text |}])%list st,
          [postMessage (userMessage text);
           postMessage thinking;
           postMessage (status "Getting organization...");
           request lookup;
           postMessage (error ("Error: " ++ message))]).
Proof.
  intros Htext Hcookie Horg Hfail.
  destruct (getOrganizationId_fails w (secrets st) message Hcookie Hfail)
    as (lookup & Hcall & Hkind).
  exists lookup. split; [exact Hkind|].
  rewrite (handle_accepted w st text Htext Hcookie). cbv zeta.
  set (st1 := set_messages _ st).
  pose proof (ensureOrganization_lookup w st1 Horg) as Hlookup.
  cbv zeta in Hlookup.
  change (secrets st1) with (secrets st) in Hlookup.
  rewrite Hcall in Hlookup. simpl in Hlookup.
  erewrite tryCatch_Thrown;
    [| eapply bind_Thrown; exact Hlookup | reflexivity].
  cbv iota. simpl replies. rewrite app_nil_r, set_messages_same. reflexivity.
Qed.

(** ** The decoder *)

(** What the [try] block does with a payload that parses. *)
Lemma interpret_parsed (data : string) (parsed : any) :
  JSON_parse data = Some parsed ->
  interpret data
  = match parsed with
    | VUndefined | VNull => None
    | _ =>
        Some (if isTextDelta parsed then [onChunk (deltaText parsed)]
              else if ToBoolean (completionOf parsed)
                   then [onChunk (completionOf parsed)]
                   else [])
    end.
Proof.
  intros Hparse. unfold interpret. rewrite Hparse.
  destruct parsed as [| |b|n|s|elements|properties]; try reflexivity.
  simpl. destruct (strictEquals (lookup "type" properties) "content_block_delta");
    simpl; [|reflexivity].
  destruct (lookup "delta" properties) as [| |b|n|s|elements|inner]; try reflexivity.
  simpl. destruct (strictEquals (lookup "type" inner) "text_delta"); reflexivity.
Qed.

Lemma forLines_cons (line : string) (rest : list string) :
  forLines (line :: rest)
  = if Str.startsWith "data: " line then
      if String.eqb (Str.trim (Str.slice 6 line)) "[DONE]" then [onDone]
      else (match interpret (Str.trim (Str.slice 6 line)) with
            | Some calls => calls
            | None => []
            end ++ forLines rest)%list
    else forLines rest.
Proof. reflexivity. Qed.

Lemma forLines_data (line : string) (rest : list string) :
  Str.startsWith "data: " line = true ->
  Str.trim (Str.slice 6 line) <> "[DONE]" ->
  forLines (line :: rest)
  = (match interpret (Str.trim (Str.slice 6 line)) with
     | Some calls => calls
     | None => []
     end ++ forLines rest)%list.
Proof.
  intros Hprefix Hdata. rewrite forLines_cons, Hprefix.
  destruct (String.eqb_spec (Str.trim (Str.slice 6 line)) "[DONE]") as [E|_];
    [contradiction | reflexivity].
Qed.

(** C4, as the code has it. For a complete data line whose payload is not
    the terminator: a payload that does not parse makes no callback; a
    nested delta envelope that carries a text makes one [onChunk] with it;
    any other payload whose [completion] is truthy (a non-empty string, in
    particular) makes one [onChunk] with that value; any other payload
    whose [completion] is absent or falsy (the empty string included) makes
    no callback. In each case the loop goes on to the next line. *)
Theorem data_line_callbacks (line : string) (rest : list string) :
  Str.startsWith "data: " line = true ->
  Str.trim (Str.slice 6 line) <> "[DONE]" ->
  (JSON_parse (Str.trim (Str.slice 6 line)) = None ->
   forLines (line :: rest) = forLines rest)
  /\ (forall parsed : any,
        JSON_parse (Str.trim (Str.slice 6 line)) = Some parsed ->
        (isTextDelta parsed = true ->
         deltaText parsed <> VUndefined ->
         forLines (line :: rest) = onChunk (deltaText parsed) :: forLines rest)
        /\ (isTextDelta parsed = false ->
            ToBoolean (completionOf parsed) = true ->
            forLines (line :: rest) = onChunk (completionOf parsed) :: forLines rest)
        /\ (isTextDelta parsed = false ->
            ToBoolean (completionOf parsed) = false ->
            forLines (line :: rest) = forLines rest)).
Proof.
  intros Hprefix Hdata. rewrite (forLines_data line rest Hprefix Hdata). split.
  - intros Hparse. unfold interpret. rewrite Hparse. reflexivity.
  - intros parsed Hparse. rewrite (interpret_parsed _ parsed Hparse).
    repeat split.
    + intros Hd _. destruct parsed; try discriminate Hd. rewrite Hd. reflexivity.
    + intros Hd Hc. destruct parsed; try discriminate Hc; rewrite ?Hd, Hc; reflexivity.
    + intros Hd Hc. destruct parsed; try reflexivity; rewrite ?Hd, Hc; reflexivity.
Qed.

(** *** Independence of the chunk boundaries, short of a terminator *)

Lemma completeLines_app (a b : string) :
  completeLines (a ++ b)
  = (completeLines a ++ completeLines (fragment a ++ b))%list.
Proof.
  unfold completeLines, fragment, pop. simpl.
  rewrite split_app. apply removelast_app, split_nonempty.
Qed.

Lemma fragment_app (a b : string) :
  fragment (a ++ b) = fragment (fragment a ++ b).
Proof.
  unfold fragment, pop. simpl.
  rewrite split_app. apply last_app_nonempty, split_nonempty.
Qed.

Lemma completeLines_fragment (text : string) :
  completeLines (fragment text) = [].
Proof.
  unfold completeLines, fragment, pop. simpl. rewrite split_last. reflexivity.
Qed.

Lemma onData_eq (buffer chunk : string) :
  onData buffer chunk
  = (fragment (buffer ++ chunk), forLines (completeLines (buffer ++ chunk))).
Proof. reflexivity. Qed.

Lemma onDataEvents_cons (buffer chunk : string) (chunks : list string) :
  onDataEvents buffer (chunk :: chunks)
  = (forLines (completeLines (buffer ++ chunk))
     ++ onDataEvents (fragment (buffer ++ chunk)) chunks)%list.
Proof. reflexivity. Qed.

(** The loop over two lists of lines is the loop over each, when the first
    holds no terminator. *)
Lemma forLines_app (lines1 lines2 : list string) :
  existsb isTerminator lines1 = false ->
  forLines (lines1 ++ lines2) = (forLines lines1 ++ forLines lines2)%list.
Proof.
  induction lines1 as [|line lines1 IH]; [reflexivity|].
  simpl existsb. intros H. apply orb_false_iff in H as [Hline Hrest].
  rewrite <- app_comm_cons, !forLines_cons.
  unfold isTerminator in Hline.
  destruct (Str.startsWith "data: " line); cbn [andb] in Hline.
  - rewrite Hline, (IH Hrest), app_assoc. reflexivity.
  - exact (IH Hrest).
Qed.

(** Fed chunk by chunk from a buffer that holds no complete line, the
    listener makes the callbacks of the loop over all the complete lines of
    the text, as long as no line before the last complete one is a
    terminator. *)
Lemma onDataEvents_whole (chunks : list string) (buffer : string) :
  completeLines buffer = [] ->
  existsb isTerminator (removelast (completeLines (buffer ++ bodyOf chunks))) = false ->
  onDataEvents buffer chunks = forLines (completeLines (buffer ++ bodyOf chunks)).
Proof.
  revert buffer. induction chunks as [|chunk chunks IH]; intros buffer Hbuf Hterm.
  - simpl. rewrite append_empty_r, Hbuf. reflexivity.
  - rewrite onDataEvents_cons.
    simpl bodyOf in *.
    rewrite <- (append_assoc buffer chunk (bodyOf chunks)) in *.
    rewrite (completeLines_app (buffer ++ chunk) (bodyOf chunks)) in *.
    specialize (IH (fragment (buffer ++ chunk)) (completeLines_fragment _)).
    remember (completeLines (fragment (buffer ++ chunk) ++ bodyOf chunks))
      as later eqn:Elater.
    destruct later as [|line later].
    + rewrite (IH eq_refl), !app_nil_r. reflexivity.
    + rewrite removelast_app in Hterm by discriminate.
      rewrite existsb_app in Hterm. apply orb_false_iff in Hterm as [H1 H2].
      rewrite (IH H2). symmetry. apply forLines_app, H1.
Qed.

(** Chunk-boundary independence for bodies that do not go on after a
    terminator: if no complete line of the body before its last complete
    line is a terminator, every way of cutting the text of the body into
    the texts of chunks makes the same callbacks as the body in one piece.
    (The [Buffer]s themselves are decoded one by one.) *)
Theorem chunk_boundary_independence (chunks : list string) :
  existsb isTerminator (removelast (completeLines (bodyOf chunks))) = false ->
  onDataEvents EmptyString chunks = onDataEvents EmptyString [bodyOf chunks].
Proof.
  intros Hterm.
  rewrite (onDataEvents_whole chunks EmptyString eq_refl Hterm).
  rewrite (onDataEvents_whole [bodyOf chunks] EmptyString eq_refl);
    simpl bodyOf; rewrite ?append_empty_r; [reflexivity | exact Hterm].
Qed.

(** *** The terminator and the callbacks short of it *)

(** The part of C3 that the code does: the loop posts one [onDone] at the
    first terminator line and looks at no later line of the same list. *)
Lemma terminator_stops_its_chunk (before : list string) (line : string)
    (rest : list string) :
  existsb isTerminator before = false ->
  isTerminator line = true ->
  forLines (before ++ line :: rest) = (forLines before ++ [onDone])%list.
Proof.
  intros Hbefore Hline. rewrite (forLines_app before _ Hbefore). f_equal.
  rewrite forLines_cons. unfold isTerminator in Hline.
  apply andb_true_iff in Hline as [-> ->]. reflexivity.
Qed.

Lemma interpret_chunks (data : string) (calls : list Callback) :
  interpret data = Some calls -> forallb isChunkCall calls = true.
Proof.
  unfold interpret, obind. intros H.
  repeat match type of H with
         | context [match ?x with _ => _ end] => destruct x
         end;
    try discriminate; injection H as <-; reflexivity.
Qed.

Lemma forLines_chunks (lines : list string) :
  existsb isTerminator lines = false ->
  forallb isChunkCall (forLines lines) = true.
Proof.
  induction lines as [|line lines IH]; [reflexivity|].
  simpl existsb. intros H. apply orb_false_iff in H as [Hline Hrest].
  rewrite forLines_cons. unfold isTerminator in Hline.
  destruct (Str.startsWith "data: " line); cbn [andb] in Hline.
  - rewrite Hline, forallb_app, (IH Hrest), andb_true_r.
    destruct (interpret _) as [calls|] eqn:E; [|reflexivity].
    exact (interpret_chunks _ calls E).
  - exact (IH Hrest).
Qed.

Lemma existsb_removelast {A : Type} (f : A -> bool) (l : list A) :
  existsb f l = false -> existsb f (removelast l) = false.
Proof.
  induction l as [|x l IH]; [reflexivity|].
  simpl existsb. intros H. apply orb_false_iff in H as [Hx Hl].
  destruct l as [|y l]; [reflexivity|].
  change (removelast (x :: y :: l)) with (x :: removelast (y :: l)).
  change (existsb f (x :: removelast (y :: l)))
    with (f x || existsb f (removelast (y :: l))).
  rewrite Hx, (IH Hl). reflexivity.
Qed.

(** A response with no terminator line makes [onChunk] callbacks only,
    until it finishes. *)
Lemma onDataEvents_chunks (chunks : list string) :
  existsb isTerminator (completeLines (bodyOf chunks)) = false ->
  forallb isChunkCall (onDataEvents EmptyString chunks) = true.
Proof.
  intros H.
  rewrite (onDataEvents_whole chunks EmptyString eq_refl (existsb_removelast _ _ H)).
  apply forLines_chunks, H.
Qed.

(** ** One prompt from the cookie check to the last callback *)

Lemma posted_app (l1 l2 : list Effect) :
  posted (l1 ++ l2) = (posted l1 ++ posted l2)%list.
Proof. apply flat_map_app. Qed.

Lemma posted_requests (l : list Request) : posted (map request l) = [].
Proof. induction l as [|r l IH]; [reflexivity | exact IH]. Qed.

Lemma posted_shown (calls : list Callback) :
  posted (map (fun call => postMessage (shown call)) calls) = map shown calls.
Proof. induction calls as [|call calls IH]; simpl; [|rewrite IH]; reflexivity. Qed.

Lemma getOrganizationId_pending (secrets0 : SecretStorage) (w : World) :
  snd (getOrganizationId secrets0 w) = Pending ->
  settles (organizations w) = false.
Proof.
  unfold getOrganizationId, getCookie. destruct secrets0 as [cookie|]; [|discriminate].
  destruct (Str.isEmpty cookie); [discriminate|]. simpl snd.
  destruct (organizations w) as [message|res]; [discriminate|].
  simpl. destruct (finish res); [|reflexivity].
  unfold obind. destruct (JSON_parse (collect res)) as [orgs|]; [|discriminate].
  destruct (asArray orgs) as [[|first rest]|]; try discriminate.
  destruct (Get first "uuid"); discriminate.
Qed.

Lemma createConversation_pending (st : State) (w : World) :
  snd (_createConversation st w) = Pending ->
  settles (chat_conversations w) = false.
Proof.
  unfold _createConversation, getCookie. destruct (secrets st) as [cookie|]; [|discriminate].
  destruct (Str.isEmpty cookie || negb (ToBoolean (_orgId st))); [discriminate|].
  simpl snd.
  destruct (chat_conversations w) as [message|res]; [discriminate|].
  simpl. destruct (finish res); [|reflexivity].
  unfold obind. destruct (JSON_parse (collect res)) as [parsed|]; [|discriminate].
  destruct (Get parsed "uuid") as [id|]; [|discriminate].
  destruct (ToBoolean id); discriminate.
Qed.

(** Each bootstrap block posts status lines only, keeps the history and the
    cookie, and is left pending only by an exchange that is cut off. *)
Lemma ensureOrganization_shape (w : World) (st : State) :
  exists o st' log,
    ensureOrganization w st = (o, st', log)
    /\ _messages st' = _messages st
    /\ secrets st' = secrets st
    /\ forallb isStatus (posted log) = true
    /\ (o = Pending -> settles (organizations w) = false).
Proof.
  destruct (ToBoolean (_orgId st)) eqn:Horg.
  - rewrite (ensureOrganization_cached w st Horg).
    do 3 eexists. repeat split. discriminate.
  - rewrite (ensureOrganization_lookup w st Horg). cbv zeta.
    do 3 eexists. split; [reflexivity|].
    pose proof (getOrganizationId_pending (secrets st) w) as Hpending.
    destruct (snd (getOrganizationId (secrets st) w));
      simpl posted; rewrite posted_requests; repeat split; try discriminate.
    intros _. exact (Hpending eq_refl).
Qed.

Lemma ensureConversation_shape (w : World) (st : State) :
  exists o st' log,
    ensureConversation w st = (o, st', log)
    /\ _messages st' = _messages st
    /\ secrets st' = secrets st
    /\ forallb isStatus (posted log) = true
    /\ (o = Pending -> settles (chat_conversations w) = false).
Proof.
  destruct (ToBoolean (_conversationId st)) eqn:Hconv.
  - rewrite (ensureConversation_active w st Hconv).
    do 3 eexists. repeat split. discriminate.
  - rewrite (ensureConversation_create w st Hconv). cbv zeta.
    do 3 eexists. split; [reflexivity|].
    pose proof (createConversation_pending st w) as Hpending.
    destruct (snd (_createConversation st w));
      simpl posted; rewrite posted_requests; repeat split; try discriminate.
    intros _. exact (Hpending eq_refl).
Qed.

(** With a cookie and the user message in the history, [dispatch] announces
    the answer, issues the completion call and returns the callbacks of
    that exchange. *)
Lemma dispatch_returns (w : World) (st : State) (earlier : list Message)
    (m : Message) :
  hasCookie (secrets st) = true ->
  _messages st = (earlier ++ [m])%list ->
  exists send,
    dispatch w st
    = (Returned (onExchange (completion w)), st,
       [postMessage startAssistantMessage; request send]).
Proof.
  intros Hcookie Hmessages. rewrite dispatch_eq. cbv zeta. rewrite Hmessages.
  destruct (hasCookie_inv _ Hcookie) as (cookie & Hsec & Hne).
  unfold sendMessage, noCookie, getCookie. rewrite Hsec, Hne, lastOf_snoc.
  eexists. reflexivity.
Qed.

(** The [try] and its [catch], from a state that passed the cookie check:
    either the streaming exchange was reached, and its callbacks come
    back after status lines and [startAssistantMessage]; or a bootstrap
    step threw, and the [catch] posted [error] after status lines; or a
    bootstrap exchange was cut off and the call is left pending. *)
Lemma try_shape (w : World) (st1 : State) (earlier : list Message) (m : Message) :
  hasCookie (secrets st1) = true ->
  _messages st1 = (earlier ++ [m])%list ->
  exists o st2 log,
    tryCatch (ensureOrganization w ;;; ensureConversation w ;;; dispatch w)
      catchBlock st1 = (o, st2, log)
    /\ _messages st2 = _messages st1
    /\ match o with
       | Returned calls =>
           exists before,
             forallb isStatus before = true
             /\ ((calls = onExchange (completion w)
                  /\ posted log = (before ++ [startAssistantMessage])%list)
                 \/ (calls = []
                     /\ exists message,
                          posted log = (before ++ [error ("Error: " ++ message)])%list))
       | Thrown _ => False
       | Pending =>
           forallb isStatus (posted log) = true
           /\ settles (organizations w) && settles (chat_conversations w) = false
       end.
Proof.
  intros Hcookie Hmessages.
  destruct (ensureOrganization_shape w st1)
    as (oA & stA & logA & HA & HmA & HsA & HpA & HendA).
  destruct oA as [[]|messageA|].
  - destruct (ensureConversation_shape w stA)
      as (oB & stB & logB & HB & HmB & HsB & HpB & HendB).
    destruct oB as [[]|messageB|].
    + destruct (dispatch_returns w stB earlier m) as (send & HC).
      { rewrite HsB, HsA. exact Hcookie. }
      { rewrite HmB, HmA. exact Hmessages. }
      do 3 eexists. split.
      { eapply tryCatch_Returned, bind_Returned; [exact HA|].
        eapply bind_Returned; [exact HB | exact HC]. }
      split; [rewrite HmB, HmA; reflexivity|].
      exists (posted logA ++ posted logB)%list. split.
      { rewrite forallb_app, HpA, HpB. reflexivity. }
      left. split; [reflexivity|].
      rewrite !posted_app, app_assoc. reflexivity.
    + do 3 eexists. split.
      { eapply tryCatch_Thrown; [|reflexivity].
        eapply bind_Returned; [exact HA|]. eapply bind_Thrown. exact HB. }
      split; [rewrite HmB, HmA; reflexivity|].
      exists (posted logA ++ posted logB)%list. split.
      { rewrite forallb_app, HpA, HpB. reflexivity. }
      right. split; [reflexivity|]. exists messageB.
      rewrite !posted_app. reflexivity.
    + do 3 eexists. split.
      { eapply tryCatch_Pending.
        eapply bind_Returned; [exact HA|]. eapply bind_Pending. exact HB. }
      split; [rewrite HmB, HmA; reflexivity|]. split.
      { rewrite posted_app, forallb_app, HpA, HpB. reflexivity. }
      rewrite (HendB eq_refl). apply andb_false_r.
  - do 3 eexists. split.
    { eapply tryCatch_Thrown; [|reflexivity]. eapply bind_Thrown. exact HA. }
    split; [exact HmA|].
    exists (posted logA). split; [exact HpA|].
    right. split; [reflexivity|]. exists messageA.
    rewrite posted_app. reflexivity.
  - do 3 eexists. split.
    { eapply tryCatch_Pending. eapply bind_Pending. exact HA. }
    split; [exact HmA|]. split; [exact HpA|].
    rewrite (HendA eq_refl). reflexivity.
Qed.

(** *** The callbacks of an exchange *)

(** A plain exchange makes [onChunk] callbacks, then one [onDone] or
    [onError]. *)
Lemma onExchange_plain (exchange : Exchange) :
  plain exchange = true ->
  exists chunks final,
    onExchange exchange = (chunks ++ [final])%list
    /\ forallb isChunkCall chunks = true
    /\ isChunkCall final = false.
Proof.
  destruct exchange as [message|res]; simpl.
  - intros _. exists [], (onError message). repeat split.
  - unfold onResponse. destruct (400 <=? statusCode res)%N.
    + destruct (finish res); [|discriminate]. intros _.
      eexists [], _. repeat split.
    + unfold terminatorFree. intros H. apply negb_true_iff in H.
      destruct (finish res); eexists _, _;
        (split; [reflexivity|]; split; [exact (onDataEvents_chunks _ H) | reflexivity]).
Qed.


Lemma status_not_terminal (l : list WebviewMessage) :
  forallb isStatus l = true ->
  forallb (fun m => negb (isTerminal m)) l = true.
Proof.
  induction l as [|m l IH]; [reflexivity|]. simpl.
  intros H. apply andb_true_iff in H as [Hm Hl].
  rewrite (IH Hl), andb_true_r. destruct m; try discriminate; reflexivity.
Qed.

Lemma chunks_not_terminal (calls : list Callback) :
  forallb isChunkCall calls = true ->
  forallb (fun m => negb (isTerminal m)) (map shown calls) = true.
Proof.
  induction calls as [|call calls IH]; [reflexivity|]. simpl.
  intros H. apply andb_true_iff in H as [Hcall Hcalls].
  rewrite (IH Hcalls), andb_true_r. destruct call; try discriminate; reflexivity.
Qed.


(** What C1 asks, where the code delivers it. When the prompt passes both
    guards, no bootstrap exchange is cut off, and the streaming exchange
    holds no terminator line (and, at 400 and above, ends): the messages
    posted end with one [done] or [error], and no other message posted is
    one. *)
Theorem exactly_one_terminal (w : World) (st : State) (text : string) :
  Str.isBlank text = false ->
  hasCookie (secrets st) = true ->
  settles (organizations w) = true ->
  settles (chat_conversations w) = true ->
  plain (completion w) = true ->
  exists before final,
    posted (logOf (_handleUserMessage w text) st) = (before ++ [final])%list
    /\ isTerminal final = true
    /\ forallb (fun m => negb (isTerminal m)) before = true.
Proof.
  intros Htext Hcookie Horgs Hconvs Hplain.
  unfold logOf. rewrite (handle_accepted w st text Htext Hcookie). cbv zeta.
  destruct (try_shape w (set_messages (_messages st ++ [{| role := user; content := text |}]) st)
              (_messages st) {| role := user; content := text |} Hcookie eq_refl)
    as (o & st2 & log & -> & _ & Hshape).
  destruct o as [calls|message|].
  - destruct Hshape as (pre & Hpre & [[-> Hlog] | [-> [message Hlog]]]).
    + destruct (onExchange_plain _ Hplain) as (chunks & final & -> & Hchunks & Hfinal).
      exists (userMessage text :: thinking
              :: pre ++ [startAssistantMessage] ++ map shown chunks)%list,
             (shown final).
      simpl snd. split; [|split].
      * simpl. rewrite posted_app, Hlog, posted_shown, map_app.
        rewrite <- !app_assoc. reflexivity.
      * destruct final; try discriminate; reflexivity.
      * simpl. rewrite forallb_app, (status_not_terminal _ Hpre).
        simpl. apply chunks_not_terminal, Hchunks.
    + exists (userMessage text :: thinking :: pre), (error ("Error: " ++ message)).
      simpl snd. split; [|split].
      * simpl. rewrite posted_app, Hlog, app_nil_r. reflexivity.
      * reflexivity.
      * simpl. apply status_not_terminal, Hpre.
  - contradiction.
  - destruct Hshape as [_ Hcut]. rewrite Horgs, Hconvs in Hcut. discriminate.
Qed.


End Properties.

(** * The scenario, run *)

Section Runs.

Import Scenario.

#[local] Existing Instance RefHost.host.

(** ** Where the code leaves the specification *)

(** C1. The scenario of the specification (two deltas, the terminator, then
    the end of the response): [done] is posted twice, once for the
    terminator line and once for the ['end'] event, and the answer is
    appended to the history twice. *)
Theorem terminator_then_end_posts_done_twice :
  posted (logOf (_handleUserMessage (world (ok hello)) "hi") (opened (Some "sk-1")))
  = [userMessage "hi"; thinking;
     status "Getting organization..."; status "Starting conversation...";
     startAssistantMessage;
     chunk (VString "Hel"); chunk (VString "lo"); done; done]
  /\ terminals (logOf (_handleUserMessage (world (ok hello)) "hi") (opened (Some "sk-1")))
     = [done; done]
  /\ _messages (stateAfter (_handleUserMessage (world (ok hello)) "hi")
                  (opened (Some "sk-1")))
     = [{| role := user; content := "hi" |};
        {| role := assistant; content := "Hello" |};
        {| role := assistant; content := "Hello" |}].
Proof. repeat split; reflexivity. Qed.

(** C2. A body with a data line after the terminator line: in one chunk the
    line after the terminator is skipped; cut after the terminator line, it
    is interpreted. The callbacks depend on where the body is cut. *)
Theorem cut_after_terminator_changes_callbacks :
  bodyOf [doneLine; legacyLine "late"] = bodyOf [doneLine ++ legacyLine "late"]
  /\ onDataEvents EmptyString [doneLine ++ legacyLine "late"] = [onDone]
  /\ onDataEvents EmptyString [doneLine; legacyLine "late"]
     = [onDone; onChunk (VString "late")]
  /\ onExchange (ok [doneLine ++ legacyLine "late"]) = [onDone; onDone]
  /\ onExchange (ok [doneLine; legacyLine "late"])
     = [onDone; onChunk (VString "late"); onDone].
Proof. repeat split; reflexivity. Qed.

(** C3. A data line that arrives in the chunk after the terminator line is
    interpreted, and the end of the response makes a second [onDone]: the
    terminator stops the loop over the lines of its own chunk only. *)
Theorem later_chunk_read_after_terminator :
  onResponse {| statusCode := 200;
                data := [doneLine; legacyLine "late"];
                finish := end_ |}
  = [onDone; onChunk (VString "late"); onDone].
Proof. reflexivity. Qed.

(** C8. Two responses that are cut off. After its terminator line: [done]
    is posted and the answer gathered so far is appended to the history
    before the [error] message follows. With status 500: nothing listens to
    the ['error'] event on that path, and no [error] message is posted. *)
Theorem cut_off_responses_outside_the_error_path :
  posted (logOf (_handleUserMessage
                   (world (cut 200 [deltaLine "Hel"; doneLine] "aborted")) "hi")
            (opened (Some "sk-1")))
  = [userMessage "hi"; thinking;
     status "Getting organization..."; status "Starting conversation...";
     startAssistantMessage;
     chunk (VString "Hel"); done; error "Error: aborted"]
  /\ _messages (stateAfter (_handleUserMessage
                              (world (cut 200 [deltaLine "Hel"; doneLine] "aborted")) "hi")
                  (opened (Some "sk-1")))
     = [{| role := user; content := "hi" |};
        {| role := assistant; content := "Hel" |}]
  /\ posted (logOf (_handleUserMessage (world (cut 500 ["oops"] "aborted")) "hi")
               (opened (Some "sk-1")))
     = [userMessage "hi"; thinking;
        status "Getting organization..."; status "Starting conversation...";
        startAssistantMessage].
Proof. repeat split; reflexivity. Qed.

(** C4, as the specification words it, fails: a legacy envelope whose [completion]
    is the empty string makes no callback. *)
Lemma empty_completion_makes_no_callback :
  JSON_parse (Str.dq "{'completion':''}")
  = Some (VObject [("completion", VString EmptyString)])
  /\ forLines [Str.dq "data: {'completion':''}"] = [].
Proof. split; reflexivity. Qed.

(** A delta envelope that carries no text: [onChunk] is called with
    [undefined]. *)
Lemma delta_without_text_makes_undefined_chunk :
  forLines [Str.dq "data: {'type':'content_block_delta','delta':{'type':'text_delta'}}"]
  = [onChunk VUndefined].
Proof. reflexivity. Qed.

(** C5, as the specification words it, fails: with an empty list of organizations
    the call ends with an [error] message, but the user message is in the
    history and [userMessage] has been posted. *)
Lemma empty_organization_list_keeps_user_message :
  _handleUserMessage noOrganization "hi" (opened (Some "sk-1"))
  = (Returned tt,
     {| secrets := Some "sk-1";
        _messages := [{| role := user; content := "hi" |}];
        _orgId := VUndefined;
        _conversationId := VUndefined |},
     [postMessage (userMessage "hi");
      postMessage thinking;
      postMessage (status "Getting organization...");
      request {| method := "GET"; path := "/api/organizations";
                 Cookie := "sessionKey=sk-1"; Accept := None; body := None |};
      postMessage (error "Error: Could not get organization. Response: []")]).
Proof. reflexivity. Qed.

(** ** The theorems at concrete inputs *)

Lemma blank_prompt_is_noop_run :
  Str.isBlank "   " = true
  /\ _handleUserMessage (world (ok hello)) "   " talking = (Returned tt, talking, []).
Proof.
  split; [reflexivity|].
  apply (blank_prompt_is_noop (world (ok hello)) talking "   "). reflexivity.
Defined.

Lemma no_cookie_single_error_run :
  Str.isBlank "hi" = false
  /\ hasCookie (secrets (opened None)) = false
  /\ _handleUserMessage (world (ok hello)) "hi" (opened None)
     = (Returned tt, opened None, [postMessage (error noCookieText)]).
Proof.
  split; [reflexivity|]. split; [reflexivity|].
  apply (no_cookie_single_error (world (ok hello)) (opened None) "hi"); reflexivity.
Defined.

Lemma blank_cookie_is_no_cookie_run :
  Str.isBlank "   " = true
  /\ getCookie (setCookie "   " (Some "sk-1")) = Some EmptyString
  /\ hasCookie (setCookie "   " (Some "sk-1")) = false
  /\ _checkCookieStatus (opened (Some EmptyString))
     = (Returned tt, opened (Some EmptyString), [postMessage (cookieStatus false)])
  /\ _handleUserMessage (world (ok hello)) "hi" (opened (Some EmptyString))
     = (Returned tt, opened (Some EmptyString), [postMessage (error noCookieText)]).
Proof.
  split; [reflexivity|].
  destruct (blank_cookie_is_no_cookie "   " (Some "sk-1") eq_refl)
    as (Hstored & Hhas & _ & Hnext).
  split; [exact Hstored|]. split; [exact Hhas|].
  destruct (Hnext (world (ok hello)) (opened (Some EmptyString)) "hi" eq_refl)
    as [Hstatus Hprompt].
  split; [exact Hstatus | exact (Hprompt eq_refl)].
Defined.


Lemma organization_failure_after_user_message_run :
  Str.isBlank "hi" = false
  /\ hasCookie (secrets (opened (Some "sk-1"))) = true
  /\ ToBoolean (_orgId (opened (Some "sk-1"))) = false
  /\ OrganizationLookupFails noOrganization "Could not get organization. Response: []"
  /\ exists lookup,
       isOrganizationLookup lookup = true
       /\ _handleUserMessage noOrganization "hi" (opened (Some "sk-1"))
          = (Returned tt,
             set_messages [{| role := user; content := "hi" |}] (opened (Some "sk-1")),
             [postMessage (userMessage "hi");
              postMessage thinking;
              postMessage (status "Getting organization...");
              request lookup;
              postMessage (error "Error: Could not get organization. Response: []")]).
Proof.
  assert (Hfail : OrganizationLookupFails noOrganization
                    "Could not get organization. Response: []").
  { change (OrganizationLookupFails noOrganization
              ("Could not get organization. Response: "
               ++ collect {| statusCode := 200; data := ["[]"]; finish := end_ |})).
    apply lookup_empty_list; reflexivity. }
  split; [reflexivity|]. split; [reflexivity|]. split; [reflexivity|].
  split; [exact Hfail|].
  apply (organization_failure_after_user_message noOrganization
           (opened (Some "sk-1")) "hi" _ eq_refl eq_refl eq_refl Hfail).
Defined.

Lemma data_line_callbacks_run :
  Str.startsWith "data: " (Str.dq "data: {'completion':'Hi'}") = true
  /\ Str.trim (Str.slice 6 (Str.dq "data: {'completion':'Hi'}")) <> "[DONE]"
  /\ forLines [Str.dq "data: {'completion':'Hi'}"] = [onChunk (VString "Hi")].
Proof.
  assert (Hdata : Str.trim (Str.slice 6 (Str.dq "data: {'completion':'Hi'}")) <> "[DONE]")
    by (vm_compute; discriminate).
  split; [reflexivity|]. split; [exact Hdata|].
  destruct (data_line_callbacks (Str.dq "data: {'completion':'Hi'}") [] eq_refl Hdata)
    as [_ Hparsed].
  destruct (Hparsed (VObject [("completion", VString "Hi")]) eq_refl)
    as (_ & Hlegacy & _).
  exact (Hlegacy eq_refl eq_refl).
Defined.

(** A body cut in the middle of its first line and ended by the terminator
    line. *)
Lemma chunk_boundary_independence_run :
  existsb isTerminator
    (removelast (completeLines
                   (bodyOf [Str.dq "data: {'comple";
                            Str.line (Str.dq "tion':'Hi'}") ++ doneLine])))
  = false
  /\ onDataEvents EmptyString
       [Str.dq "data: {'comple"; Str.line (Str.dq "tion':'Hi'}") ++ doneLine]
     = onDataEvents EmptyString
         [bodyOf [Str.dq "data: {'comple";
                  Str.line (Str.dq "tion':'Hi'}") ++ doneLine]].
Proof.
  split; [reflexivity|].
  apply (chunk_boundary_independence
           [Str.dq "data: {'comple"; Str.line (Str.dq "tion':'Hi'}") ++ doneLine]).
  reflexivity.
Defined.

(** The scenario with a stream that ends without a terminator line. *)
Lemma exactly_one_terminal_run :
  plain (ok [deltaLine "Hel"; deltaLine "lo"]) = true
  /\ exists before final,
       posted (logOf (_handleUserMessage (world (ok [deltaLine "Hel"; deltaLine "lo"])) "hi")
                 (opened (Some "sk-1")))
       = (before ++ [final])%list
       /\ isTerminal final = true
       /\ forallb (fun m => negb (isTerminal m)) before = true.
Proof.
  split; [reflexivity|].
  apply (exactly_one_terminal (world (ok [deltaLine "Hel"; deltaLine "lo"]))
           (opened (Some "sk-1")) "hi"); reflexivity.
Defined.


End Runs.


(** * Further properties *)

(** ** Identifiers *)

Lemma hexDigit_isHex (v : N) : (v < 16)%N -> Uuid.isHex (Uuid.hexDigit v) = true.
Proof.
  intros H.
  assert (Hcases : In v [0; 1; 2; 3; 4; 5; 6; 7; 8; 9; 10; 11; 12; 13; 14; 15]%N).
  { destruct v as [|p]; [left; reflexivity|].
    do 4 (destruct p as [p|p|]; try (exfalso; lia); simpl; auto 20). }
  simpl in Hcases.
  repeat (destruct Hcases as [<-|Hcases]; [reflexivity|]). contradiction.
Qed.

Lemma toString16_digit (v : N) :
  (v < 16)%N -> Uuid.toString16 v = String (Uuid.hexDigit v) EmptyString.
Proof.
  intros H. unfold Uuid.toString16. simpl.
  apply N.ltb_lt in H. rewrite H. reflexivity.
Qed.

Lemma variant_digit (r : N) :
  exists v,
    Uuid.toString16 (N.lor (N.land r 3) 8) = String v EmptyString
    /\ Uuid.isVariant v = true.
Proof.
  assert (Hlow : (N.land r 3 < 4)%N).
  { change 3%N with (N.ones 2). rewrite N.land_ones. apply N.mod_lt. discriminate. }
  assert (Hcases : In (N.land r 3) [0; 1; 2; 3]%N).
  { destruct (N.land r 3) as [|p]; [left; reflexivity|].
    do 2 (destruct p as [p|p|]; try (exfalso; lia); simpl; auto 10). }
  simpl in Hcases.
  repeat (destruct Hcases as [<-|Hcases];
          [eexists; split; [reflexivity | reflexivity]|]).
  contradiction.
Qed.

(** The identifier sent with a conversation to create has the shape of a
    version 4 identifier, whatever the random source gives: 36 characters,
    hyphens after the groups of 8, 4, 4 and 4 digits, [4] at the head of the
    third group, one of [8], [9], [a], [b] at the head of the fourth. *)
Theorem generateUUID_is_version4 (random : nat -> N) :
  (forall i, (random i < 16)%N) ->
  Uuid.isVersion4 (Uuid.generateUUID random) = true
  /\ String.length (Uuid.generateUUID random) = 36.
Proof.
  intros Hrandom.
  destruct (variant_digit (random 15)) as (v & Hy & Hv).
  assert (Hshape : Uuid.generateUUID random
            = String (Uuid.hexDigit (random 0)) (String (Uuid.hexDigit (random 1))
              (String (Uuid.hexDigit (random 2)) (String (Uuid.hexDigit (random 3))
              (String (Uuid.hexDigit (random 4)) (String (Uuid.hexDigit (random 5))
              (String (Uuid.hexDigit (random 6)) (String (Uuid.hexDigit (random 7))
              (String "-" (String (Uuid.hexDigit (random 8))
              (String (Uuid.hexDigit (random 9)) (String (Uuid.hexDigit (random 10))
              (String (Uuid.hexDigit (random 11)) (String "-" (String "4"
              (String (Uuid.hexDigit (random 12)) (String (Uuid.hexDigit (random 13))
              (String (Uuid.hexDigit (random 14)) (String "-" (String v
              (String (Uuid.hexDigit (random 16)) (String (Uuid.hexDigit (random 17))
              (String (Uuid.hexDigit (random 18)) (String "-"
              (String (Uuid.hexDigit (random 19)) (String (Uuid.hexDigit (random 20))
              (String (Uuid.hexDigit (random 21)) (String (Uuid.hexDigit (random 22))
              (String (Uuid.hexDigit (random 23)) (String (Uuid.hexDigit (random 24))
              (String (Uuid.hexDigit (random 25)) (String (Uuid.hexDigit (random 26))
              (String (Uuid.hexDigit (random 27)) (String (Uuid.hexDigit (random 28))
              (String (Uuid.hexDigit (random 29)) (String (Uuid.hexDigit (random 30))
              EmptyString)))))))))))))))))))))))))))))))))))).
  { unfold Uuid.generateUUID, Uuid.template.
    cbn [Uuid.replaceXY Ascii.eqb Bool.eqb].
    rewrite Hy, !toString16_digit by apply Hrandom. reflexivity. }
  rewrite Hshape. split; [|reflexivity].
  unfold Uuid.isVersion4.
  cbn [Uuid.hasShape Ascii.eqb Bool.eqb].
  rewrite Hv, !hexDigit_isHex by apply Hrandom. reflexivity.
Qed.

(** ** Escaping *)

Lemma replaceAll_app (c : ascii) (replacement a b : string) :
  Markup.replaceAll c replacement (a ++ b)
  = Markup.replaceAll c replacement a ++ Markup.replaceAll c replacement b.
Proof.
  induction a as [|d a IH]; [reflexivity|].
  simpl. destruct (Ascii.eqb d c); rewrite IH; [|reflexivity].
  symmetry. apply append_assoc.
Qed.

(** The four passes of [escapeHtml] amount to one pass that rewrites each
    character on its own: the entities written by a pass hold no character
    that a later pass looks for. *)
Lemma escapeHtml_each (text : string) :
  Markup.escapeHtml text = Markup.escapeEach text.
Proof.
  unfold Markup.escapeHtml.
  induction text as [|c text IH]; [reflexivity|].
  cbn [Markup.escapeEach Markup.replaceAll]. unfold Markup.entity.
  destruct (Ascii.eqb c "&") eqn:Hamp.
  { rewrite !replaceAll_app, IH. reflexivity. }
  cbn [Markup.replaceAll]. destruct (Ascii.eqb c "<") eqn:Hlt.
  { rewrite !replaceAll_app, IH. reflexivity. }
  cbn [Markup.replaceAll]. destruct (Ascii.eqb c ">") eqn:Hgt.
  { rewrite !replaceAll_app, IH. reflexivity. }
  cbn [Markup.replaceAll]. destruct (Ascii.eqb c "034") eqn:Hquote.
  { rewrite IH. reflexivity. }
  rewrite IH. reflexivity.
Qed.

Lemma includes_app (c : ascii) (a b : string) :
  Str.includes c (a ++ b) = Str.includes c a || Str.includes c b.
Proof.
  induction a as [|d a IH]; [reflexivity|].
  simpl. rewrite IH. apply orb_assoc.
Qed.

Lemma entity_other (c : ascii) :
  Markup.isMarkup c = false -> Markup.entity c = String c EmptyString.
Proof.
  unfold Markup.isMarkup, Markup.entity. intros H.
  destruct (Ascii.eqb c "&"); [discriminate|].
  destruct (Ascii.eqb c "<"); [discriminate|].
  destruct (Ascii.eqb c ">"); [discriminate|].
  destruct (Ascii.eqb c "034"); [discriminate | reflexivity].
Qed.

Lemma entity_markup (c : ascii) :
  Markup.isMarkup c = true ->
  exists name, Markup.entity c = String "&" name /\ 3 <= String.length name
               /\ Markup.hasMarkup name = false.
Proof.
  unfold Markup.isMarkup, Markup.entity. intros H.
  destruct (Ascii.eqb c "&"); [eexists; repeat split; simpl; lia|].
  destruct (Ascii.eqb c "<"); [eexists; repeat split; simpl; lia|].
  destruct (Ascii.eqb c ">"); [eexists; repeat split; simpl; lia|].
  destruct (Ascii.eqb c "034"); [eexists; repeat split; simpl; lia | discriminate].
Qed.

Lemma length_app (a b : string) :
  String.length (a ++ b) = String.length a + String.length b.
Proof. induction a as [|c a IH]; simpl; [|rewrite IH]; reflexivity. Qed.

Lemma escapeEach_length (text : string) :
  String.length text <= String.length (Markup.escapeEach text)
  /\ (Markup.hasMarkup text = true ->
      String.length text < String.length (Markup.escapeEach text)).
Proof.
  induction text as [|c text [IHle IHlt]]; [split; [reflexivity | discriminate]|].
  cbn [Markup.escapeEach Markup.hasMarkup]. rewrite length_app.
  destruct (Markup.isMarkup c) eqn:Hc.
  - destruct (entity_markup c Hc) as (name & -> & Hname & _). simpl. split; intros; lia.
  - rewrite (entity_other c Hc). simpl. split; [lia|]. intros H. specialize (IHlt H). lia.
Qed.

Lemma markup_cases (c : ascii) :
  Markup.isMarkup c = true -> Ascii.eqb c "&" = false ->
  c = "<"%char \/ c = ">"%char \/ c = "034"%char.
Proof.
  unfold Markup.isMarkup. intros H Hamp. rewrite Hamp in H.
  destruct (Ascii.eqb_spec c "<"); [auto|].
  destruct (Ascii.eqb_spec c ">"); [auto|].
  destruct (Ascii.eqb_spec c "034"); [auto | discriminate].
Qed.

(** What [escapeHtml] returns holds none of [<], [>] and the double quote,
    whatever the text; and it returns the text as it is exactly when the
    text holds none of the four characters it rewrites (the single quote is
    not one of them). *)
Theorem escapeHtml_leaves_no_markup (text : string) :
  Str.includes "<" (Markup.escapeHtml text) = false
  /\ Str.includes ">" (Markup.escapeHtml text) = false
  /\ Str.includes "034" (Markup.escapeHtml text) = false
  /\ (Markup.escapeHtml text = text <-> Markup.hasMarkup text = false).
Proof.
  rewrite escapeHtml_each.
  assert (Hsafe : forall c : ascii,
             Markup.isMarkup c = true -> Ascii.eqb c "&" = false ->
             Str.includes c (Markup.escapeEach text) = false).
  { intros c Hc Hamp. induction text as [|d text IH]; [reflexivity|].
    cbn [Markup.escapeEach]. rewrite includes_app, IH, orb_false_r.
    unfold Markup.entity.
    destruct (Ascii.eqb d "&") eqn:H1; [|destruct (Ascii.eqb d "<") eqn:H2;
      [|destruct (Ascii.eqb d ">") eqn:H3; [|destruct (Ascii.eqb d "034") eqn:H4]]].
    - destruct (markup_cases c Hc Hamp) as [E|[E|E]]; rewrite E; reflexivity.
    - destruct (markup_cases c Hc Hamp) as [E|[E|E]]; rewrite E; reflexivity.
    - destruct (markup_cases c Hc Hamp) as [E|[E|E]]; rewrite E; reflexivity.
    - destruct (markup_cases c Hc Hamp) as [E|[E|E]]; rewrite E; reflexivity.
    - simpl. rewrite orb_false_r.
      destruct (Ascii.eqb_spec c d) as [->|_]; [|reflexivity].
      unfold Markup.isMarkup in Hc. rewrite H1, H2, H3, H4 in Hc. discriminate. }
  split; [apply Hsafe; reflexivity|].
  split; [apply Hsafe; reflexivity|].
  split; [apply Hsafe; reflexivity|].
  split.
  - intros Hsame. destruct (Markup.hasMarkup text) eqn:Hm; [|reflexivity].
    destruct (escapeEach_length text) as [_ Hlt]. specialize (Hlt Hm).
    rewrite Hsame in Hlt. lia.
  - clear Hsafe. intros Hm. induction text as [|c text IH]; [reflexivity|].
    cbn [Markup.hasMarkup] in Hm. apply orb_false_iff in Hm as [Hc Hrest].
    cbn [Markup.escapeEach]. rewrite (entity_other c Hc), (IH Hrest). reflexivity.
Qed.

Lemma isMarkup_cases (c : ascii) :
  Markup.isMarkup c = true ->
  c = "&"%char \/ c = "<"%char \/ c = ">"%char \/ c = "034"%char.
Proof.
  intros H. destruct (Ascii.eqb_spec c "&"); [auto|].
  right. apply markup_cases; [exact H|].
  destruct (Ascii.eqb_spec c "&"); [contradiction | reflexivity].
Qed.

Lemma escapeEach_injective (a b : string) :
  Markup.escapeEach a = Markup.escapeEach b -> a = b.
Proof.
  revert b. induction a as [|c a IH]; intros [|d b] H.
  - reflexivity.
  - exfalso. cbn [Markup.escapeEach] in H. destruct (Markup.isMarkup d) eqn:Hd.
    + destruct (entity_markup d Hd) as (name & E & _). rewrite E in H. discriminate H.
    + rewrite (entity_other d Hd) in H. discriminate H.
  - exfalso. cbn [Markup.escapeEach] in H. destruct (Markup.isMarkup c) eqn:Hc.
    + destruct (entity_markup c Hc) as (name & E & _). rewrite E in H. discriminate H.
    + rewrite (entity_other c Hc) in H. discriminate H.
  - cbn [Markup.escapeEach] in H.
    destruct (Markup.isMarkup c) eqn:Hc, (Markup.isMarkup d) eqn:Hd.
    + destruct (isMarkup_cases c Hc) as [Ec|[Ec|[Ec|Ec]]];
        destruct (isMarkup_cases d Hd) as [Ed|[Ed|[Ed|Ed]]];
        subst c d; simpl in H; try discriminate H;
        injection H as H; rewrite (IH b H); reflexivity.
    + exfalso. destruct (entity_markup c Hc) as (name & E & _).
      rewrite E, (entity_other d Hd) in H. simpl in H. injection H as Hhead _.
      subst d. discriminate Hd.
    + exfalso. destruct (entity_markup d Hd) as (name & E & _).
      rewrite E, (entity_other c Hc) in H. simpl in H. injection H as Hhead _.
      subst c. discriminate Hc.
    + rewrite (entity_other c Hc), (entity_other d Hd) in H. simpl in H.
      injection H as -> H. rewrite (IH b H). reflexivity.
Qed.

(** Two texts that [escapeHtml] maps to the same markup are the same text. *)
Theorem escapeHtml_injective (a b : string) :
  Markup.escapeHtml a = Markup.escapeHtml b -> a = b.
Proof.
  rewrite !escapeHtml_each. apply escapeEach_injective.
Qed.

(** ** The cookie *)

Lemma trimEnd_head (c : ascii) (s : string) :
  Str.isWhiteSpace c = false ->
  exists t, Str.trimEnd (String c s) = String c t.
Proof.
  intros Hc. simpl. destruct (Str.trimEnd s) as [|d t].
  - rewrite Hc. exists EmptyString. reflexivity.
  - exists (String d t). reflexivity.
Qed.

Lemma trimEnd_trimEnd (s : string) : Str.trimEnd (Str.trimEnd s) = Str.trimEnd s.
Proof.
  induction s as [|c s IH]; [reflexivity|].
  simpl. destruct (Str.trimEnd s) as [|d t] eqn:E.
  - destruct (Str.isWhiteSpace c) eqn:Hc; [reflexivity|].
    simpl. rewrite Hc. reflexivity.
  - change (Str.trimEnd (String c (String d t)))
      with (match Str.trimEnd (String d t) with
            | EmptyString =>
                if Str.isWhiteSpace c then EmptyString else String c EmptyString
            | String _ _ as t' => String c t'
            end).
    rewrite IH. reflexivity.
Qed.

(** [trim] leaves a trimmed text as it is. *)
Lemma trim_trim (s : string) : Str.trim (Str.trim s) = Str.trim s.
Proof.
  unfold Str.trim.
  assert (Hstart : Str.trimStart (Str.trimEnd (Str.trimStart s))
                   = Str.trimEnd (Str.trimStart s)).
  { destruct (Str.isBlank s) eqn:Hb.
    - rewrite (trimStart_blank s Hb). reflexivity.
    - destruct (trimStart_nonblank s Hb) as (c & rest & -> & Hc).
      destruct (trimEnd_head c rest Hc) as (t & ->). simpl. rewrite Hc. reflexivity. }
  rewrite Hstart. apply trimEnd_trimEnd.
Qed.

(** The cookie store, written and read back. After [setCookie]: [hasCookie]
    holds exactly when the cookie given was not blank; what [getCookie]
    returns is the trimmed cookie, and storing that value again changes
    nothing. After [clearCookie], whatever was stored: no cookie. *)
Theorem cookie_store_round_trip (cookie : string) (secrets0 : SecretStorage) :
  getCookie (setCookie cookie secrets0) = Some (Str.trim cookie)
  /\ hasCookie (setCookie cookie secrets0) = negb (Str.isBlank cookie)
  /\ setCookie (Str.trim cookie) (setCookie cookie secrets0) = setCookie cookie secrets0
  /\ getCookie (clearCookie (setCookie cookie secrets0)) = None
  /\ hasCookie (clearCookie (setCookie cookie secrets0)) = false.
Proof.
  unfold setCookie, clearCookie, hasCookie, noCookie, getCookie.
  rewrite trim_isEmpty, trim_trim. repeat split.
Qed.


(** ** The buffer of the decoder *)

Lemma split_without_separator (sep : ascii) (s : string) :
  Str.includes sep s = false -> Str.split sep s = [s].
Proof.
  induction s as [|c s IH]; [reflexivity|].
  simpl. intros H. apply orb_false_iff in H as [Hc Hs].
  rewrite Ascii.eqb_sym, Hc, (IH Hs). reflexivity.
Qed.

Lemma last_split_without_separator (sep : ascii) (s : string) :
  Str.includes sep (last (Str.split sep s) EmptyString) = false.
Proof.
  induction s as [|c s IH]; [reflexivity|].
  simpl. destruct (Ascii.eqb c sep) eqn:Hc.
  - rewrite last_cons by apply split_nonempty. exact IH.
  - pose proof (split_nonempty sep s) as Hne.
    destruct (Str.split sep s) as [|piece pieces]; [contradiction|].
    destruct pieces as [|piece' pieces].
    + simpl in *. rewrite Ascii.eqb_sym, Hc, IH. reflexivity.
    + exact IH.
Qed.

Section Decoding.

Context {host : Host}.

(** What the ['data'] listener keeps in [buffer] never holds a line
    terminator, whatever the buffer was and whatever the chunk is: the text
    carried to the next chunk is always the unfinished last line alone. *)
Theorem buffer_holds_no_line (buffer chunk : string) :
  Str.includes Str.LF (fst (onData buffer chunk)) = false
  /\ completeLines (fst (onData buffer chunk)) = [].
Proof.
  rewrite onData_eq. simpl fst. split.
  - apply last_split_without_separator.
  - apply completeLines_fragment.
Qed.

(** A chunk with no line terminator in it, the empty chunk among them, makes
    no callback and is appended to the buffer as it is, when the buffer holds
    no line terminator (as it does after any chunk). *)
Theorem unfinished_line_is_kept (buffer chunk : string) :
  Str.includes Str.LF buffer = false ->
  Str.includes Str.LF chunk = false ->
  onData buffer chunk = (buffer ++ chunk, []).
Proof.
  intros Hbuffer Hchunk.
  unfold onData, pop. rewrite split_without_separator; [reflexivity|].
  rewrite includes_app, Hbuffer, Hchunk. reflexivity.
Qed.

End Decoding.

(** ** One prompt, block by block *)

Section Prompts.

Context {host : Host}.

Lemma requests_of_requests (l : list Request) : requests (map request l) = l.
Proof. induction l as [|r l IH]; simpl; [|rewrite IH]; reflexivity. Qed.

Lemma requests_append (l1 l2 : list Effect) :
  requests (l1 ++ l2) = (requests l1 ++ requests l2)%list.
Proof. apply flat_map_app. Qed.

Lemma getOrganizationId_request (secrets0 : SecretStorage) (w : World) :
  fst (getOrganizationId secrets0 w)
  = match secrets0 with
    | Some cookie =>
        if Str.isEmpty cookie then []
        else [{| method := "GET"; path := "/api/organizations";
                 Cookie := cookieHeader cookie; Accept := None; body := None |}]
    | None => []
    end.
Proof.
  unfold getOrganizationId, getCookie. destruct secrets0 as [cookie|]; [|reflexivity].
  destruct (Str.isEmpty cookie); reflexivity.
Qed.

Lemma createConversation_request_eq (st : State) (w : World) :
  fst (_createConversation st w)
  = match secrets st with
    | Some cookie =>
        if Str.isEmpty cookie || negb (ToBoolean (_orgId st)) then []
        else [{| method := "POST";
                 path := "/api/organizations/" ++ ToString (_orgId st)
                         ++ "/chat_conversations";
                 Cookie := cookieHeader cookie;
                 Accept := None;
                 body := Some (VObject [("uuid", VString (uuid w));
                                        ("name", VString EmptyString)]) |}]
    | None => []
    end.
Proof.
  unfold _createConversation, getCookie. destruct (secrets st) as [cookie|]; [|reflexivity].
  destruct (Str.isEmpty cookie || negb (ToBoolean (_orgId st))); reflexivity.
Qed.

(** The organization block: it keeps the cookie, the history and the
    conversation; it does nothing when an organization is cached; and what
    it requests is at most the lookup, under the stored cookie. *)
Lemma ensureOrganization_full (w : World) (st : State) :
  exists o st' log,
    ensureOrganization w st = (o, st', log)
    /\ secrets st' = secrets st
    /\ _messages st' = _messages st
    /\ _conversationId st' = _conversationId st
    /\ (ToBoolean (_orgId st) = true -> _orgId st' = _orgId st /\ requests log = [])
    /\ (forall c, secrets st = Some c ->
        Forall (fun r => Cookie r = cookieHeader c) (requests log))
    /\ (requests log = [] \/ exists r, requests log = [r] /\ stage r = 0).
Proof.
  destruct (ToBoolean (_orgId st)) eqn:Horg.
  - rewrite (ensureOrganization_cached w st Horg).
    do 3 eexists. repeat split; auto.
  - rewrite (ensureOrganization_lookup w st Horg). cbv zeta.
    do 3 eexists. split; [reflexivity|].
    cbn [requests flat_map app]. fold (requests (map request (fst (getOrganizationId (secrets st) w)))).
    rewrite requests_of_requests, getOrganizationId_request.
    destruct (snd (getOrganizationId (secrets st) w)); (repeat split; try discriminate);
      try (intros c Hc; rewrite Hc; destruct (Str.isEmpty c); repeat constructor);
      try (destruct (secrets st) as [c|]; [destruct (Str.isEmpty c)|]; auto;
           right; eexists; split; reflexivity).
Qed.

(** The conversation block: it keeps the cookie, the history and the
    organization; it does nothing when a conversation is active; and what it
    requests is at most the creation, under the stored cookie. *)
Lemma ensureConversation_full (w : World) (st : State) :
  exists o st' log,
    ensureConversation w st = (o, st', log)
    /\ secrets st' = secrets st
    /\ _messages st' = _messages st
    /\ _orgId st' = _orgId st
    /\ (ToBoolean (_conversationId st) = true ->
        _conversationId st' = _conversationId st /\ requests log = [])
    /\ (forall c, secrets st = Some c ->
        Forall (fun r => Cookie r = cookieHeader c) (requests log))
    /\ (requests log = [] \/ exists r, requests log = [r] /\ stage r = 1).
Proof.
  destruct (ToBoolean (_conversationId st)) eqn:Hconv.
  - rewrite (ensureConversation_active w st Hconv).
    do 3 eexists. repeat split; auto.
  - rewrite (ensureConversation_create w st Hconv). cbv zeta.
    do 3 eexists. split; [reflexivity|].
    cbn [requests flat_map app]. fold (requests (map request (fst (_createConversation st w)))).
    rewrite requests_of_requests, createConversation_request_eq.
    destruct (snd (_createConversation st w)); (repeat split; try discriminate);
      try (intros c Hc; rewrite Hc;
           destruct (Str.isEmpty c || negb (ToBoolean (_orgId st))); repeat constructor);
      try (destruct (secrets st) as [c|];
           [destruct (Str.isEmpty c || negb (ToBoolean (_orgId st)))|]; auto;
           right; eexists; split; reflexivity).
Qed.

Lemma stage_not_lookup (r : Request) :
  stage r <> 0 -> isOrganizationLookup r = false.
Proof.
  unfold stage. destruct (isOrganizationLookup r); [contradiction | reflexivity].
Qed.

(** Requests made block by block come in the order of the bootstrap. *)
Lemma staged_requests (rA rB rC : list Request) :
  (rA = [] \/ exists r, rA = [r] /\ stage r = 0) ->
  (rB = [] \/ exists r, rB = [r] /\ stage r = 1) ->
  (rC = [] \/ exists r, rC = [r] /\ stage r = 2) ->
  ascending (map stage (rA ++ rB ++ rC)) = true
  /\ (rA = [] ->
      forallb (fun r => negb (isOrganizationLookup r)) (rA ++ rB ++ rC) = true)
  /\ (forall r, In r (rA ++ rB ++ rC) -> stage r = 2 -> In r rC).
Proof.
  intros [->|(a & -> & Ha)] [->|(b & -> & Hb)] [->|(c & -> & Hc)];
    cbn [app map ascending forallb]; rewrite ?Ha, ?Hb, ?Hc;
    (split; [reflexivity|]); (split; [try discriminate; intros _|]);
    try rewrite (stage_not_lookup b) by (rewrite Hb; discriminate);
    try rewrite (stage_not_lookup c) by (rewrite Hc; discriminate);
    try reflexivity;
    intros r Hin Hr; simpl in Hin;
    repeat (destruct Hin as [<-|Hin]; [try (rewrite Hr in *; discriminate); simpl; auto|]);
    try contradiction.
Qed.

(** With a cookie and the user message last in the history, [dispatch]
    returns the callbacks of the streaming exchange after one request: the
    completion call, under the stored cookie, for the organization and the
    conversation of the state, with the content of that last message as its
    prompt. *)
Lemma dispatch_full (w : World) (st : State) (earlier : list Message)
    (m : Message) (c : string) :
  secrets st = Some c ->
  Str.isEmpty c = false ->
  _messages st = (earlier ++ [m])%list ->
  dispatch w st
  = (Returned (onExchange (completion w)), st,
     [postMessage startAssistantMessage;
      request {| method := "POST";
                 path := "/api/organizations/" ++ ToString (_orgId st)
                         ++ "/chat_conversations/" ++ ToString (_conversationId st)
                         ++ "/completion";
                 Cookie := cookieHeader c;
                 Accept := Some "text/event-stream";
                 body := Some (VObject [("prompt", VString (content m));
                                        ("timezone", VString (timeZone w));
                                        ("attachments", VArray []);
                                        ("files", VArray [])]) |}]).
Proof.
  intros Hsec Hne Hmessages. rewrite dispatch_eq. cbv zeta.
  unfold sendMessage, noCookie, getCookie.
  rewrite Hsec, Hne, Hmessages, lastOf_snoc. reflexivity.
Qed.

(** The [try] and its [catch] in full, from a state that passed the cookie
    check with the user message last in the history: what is kept, and what
    is requested. *)
Lemma try_full (w : World) (st1 : State) (earlier : list Message) (m : Message)
    (c : string) :
  secrets st1 = Some c ->
  Str.isEmpty c = false ->
  _messages st1 = (earlier ++ [m])%list ->
  exists o st2 log,
    tryCatch (ensureOrganization w ;;; ensureConversation w ;;; dispatch w)
      catchBlock st1 = (o, st2, log)
    /\ secrets st2 = secrets st1
    /\ _messages st2 = _messages st1
    /\ (ToBoolean (_orgId st1) = true ->
        _orgId st2 = _orgId st1
        /\ forallb (fun r => negb (isOrganizationLookup r)) (requests log) = true)
    /\ (ToBoolean (_conversationId st1) = true ->
        _conversationId st2 = _conversationId st1)
    /\ Forall (fun r => Cookie r = cookieHeader c) (requests log)
    /\ ascending (map stage (requests log)) = true
    /\ (forall r, In r (requests log) -> stage r = 2 ->
        path r = "/api/organizations/" ++ ToString (_orgId st2)
                 ++ "/chat_conversations/" ++ ToString (_conversationId st2)
                 ++ "/completion"
        /\ body r = Some (VObject [("prompt", VString (content m));
                                   ("timezone", VString (timeZone w));
                                   ("attachments", VArray []);
                                   ("files", VArray [])])).
Proof.
  intros Hsec Hne Hmessages.
  destruct (ensureOrganization_full w st1)
    as (oA & stA & logA & HA & HsA & HmA & HcA & HorgA & HckA & HrA).
  specialize (HckA c Hsec).
  assert (Hfinish : forall (o : Outcome (list Callback)) (st2 : State)
                      (log : list Effect) (rB rC : list Request),
             tryCatch (ensureOrganization w ;;; ensureConversation w ;;; dispatch w)
               catchBlock st1 = (o, st2, log) ->
             requests log = (requests logA ++ rB ++ rC)%list ->
             secrets st2 = secrets stA ->
             _messages st2 = _messages stA ->
             _orgId st2 = _orgId stA ->
             (ToBoolean (_conversationId stA) = true ->
              _conversationId st2 = _conversationId stA) ->
             Forall (fun r => Cookie r = cookieHeader c) rB ->
             (rB = [] \/ exists r, rB = [r] /\ stage r = 1) ->
             (rC = []
              \/ rC = [{| method := "POST";
                          path := "/api/organizations/" ++ ToString (_orgId st2)
                                  ++ "/chat_conversations/"
                                  ++ ToString (_conversationId st2)
                                  ++ "/completion";
                          Cookie := cookieHeader c;
                          Accept := Some "text/event-stream";
                          body := Some (VObject [("prompt", VString (content m));
                                                 ("timezone", VString (timeZone w));
                                                 ("attachments", VArray []);
                                                 ("files", VArray [])]) |}]) ->
             exists o st2 log,
               tryCatch (ensureOrganization w ;;; ensureConversation w ;;; dispatch w)
                 catchBlock st1 = (o, st2, log)
               /\ secrets st2 = secrets st1
               /\ _messages st2 = _messages st1
               /\ (ToBoolean (_orgId st1) = true ->
                   _orgId st2 = _orgId st1
                   /\ forallb (fun r => negb (isOrganizationLookup r)) (requests log) = true)
               /\ (ToBoolean (_conversationId st1) = true ->
                   _conversationId st2 = _conversationId st1)
               /\ Forall (fun r => Cookie r = cookieHeader c) (requests log)
               /\ ascending (map stage (requests log)) = true
               /\ (forall r, In r (requests log) -> stage r = 2 ->
                   path r = "/api/organizations/" ++ ToString (_orgId st2)
                            ++ "/chat_conversations/" ++ ToString (_conversationId st2)
                            ++ "/completion"
                   /\ body r = Some (VObject [("prompt", VString (content m));
                                              ("timezone", VString (timeZone w));
                                              ("attachments", VArray []);
                                              ("files", VArray [])]))).
  { intros o st2 log rB rC Hrun Hreq Hs Hm Ho Hc HckB HrB HrC.
    assert (HrC' : rC = [] \/ exists r, rC = [r] /\ stage r = 2).
    { destruct HrC as [->| ->]; [left; reflexivity|].
      right. eexists. split; reflexivity. }
    destruct (staged_requests (requests logA) rB rC HrA HrB HrC')
      as (Hasc & Hlookup & Hlast).
    exists o, st2, log. split; [exact Hrun|].
    split; [rewrite Hs; exact HsA|]. split; [rewrite Hm; exact HmA|].
    split.
    { intros Horg. destruct (HorgA Horg) as [Hsame Hnone].
      split; [rewrite Ho; exact Hsame|]. rewrite Hreq. apply Hlookup, Hnone. }
    split.
    { intros Hconv. rewrite <- HcA. apply Hc. rewrite HcA. exact Hconv. }
    split.
    { rewrite Hreq. apply Forall_app. split; [exact HckA|].
      apply Forall_app. split; [exact HckB|].
      destruct HrC as [->| ->]; repeat constructor. }
    split; [rewrite Hreq; exact Hasc|].
    intros r Hin Hr. rewrite Hreq in Hin. specialize (Hlast r Hin Hr).
    destruct HrC as [->| ->]; [contradiction|].
    destruct Hlast as [<-|[]]. split; reflexivity. }
  destruct oA as [[]|messageA|].
  - destruct (ensureConversation_full w stA)
      as (oB & stB & logB & HB & HsB & HmB & HoB & HconvB & HckB & HrB).
    assert (HsecA : secrets stA = Some c) by (rewrite HsA; exact Hsec).
    specialize (HckB c HsecA).
    destruct oB as [[]|messageB|].
    + pose proof (dispatch_full w stB earlier m c) as HC.
      rewrite HsB, HmB, HmA in HC. specialize (HC HsecA Hne Hmessages).
      eapply (Hfinish _ stB _ (requests logB)); try eassumption.
      * eapply tryCatch_Returned, bind_Returned; [exact HA|].
        eapply bind_Returned; [exact HB | exact HC].
      * rewrite !requests_append. reflexivity.
      * intros Hconv. exact (proj1 (HconvB Hconv)).
      * right. reflexivity.
    + eapply (Hfinish _ stB _ (requests logB) []); try eassumption.
      * eapply tryCatch_Thrown; [|reflexivity].
        eapply bind_Returned; [exact HA|]. eapply bind_Thrown. exact HB.
      * rewrite !requests_append. simpl. rewrite !app_nil_r. reflexivity.
      * intros Hconv. exact (proj1 (HconvB Hconv)).
      * left. reflexivity.
    + eapply (Hfinish _ stB _ (requests logB) []); try eassumption.
      * eapply tryCatch_Pending.
        eapply bind_Returned; [exact HA|]. eapply bind_Pending. exact HB.
      * rewrite !requests_append, !app_nil_r. reflexivity.
      * intros Hconv. exact (proj1 (HconvB Hconv)).
      * left. reflexivity.
  - eapply (Hfinish _ stA _ [] []); try reflexivity.
    + eapply tryCatch_Thrown; [|reflexivity]. eapply bind_Thrown. exact HA.
    + rewrite !requests_append. simpl. rewrite !app_nil_r. reflexivity.
    + constructor.
    + left. reflexivity.
    + left. reflexivity.
  - eapply (Hfinish _ stA _ [] []); try reflexivity.
    + eapply tryCatch_Pending. eapply bind_Pending. exact HA.
    + rewrite !app_nil_r. reflexivity.
    + constructor.
    + left. reflexivity.
    + left. reflexivity.
Qed.

Lemma replies_assistant (calls : list Callback) (fullResponse : string) :
  forallb isAssistant (replies calls fullResponse) = true.
Proof.
  revert fullResponse.
  induction calls as [|[text| |message] calls IH]; intros fullResponse; simpl; auto.
Qed.

Lemma requests_handled (text : string) (log : list Effect) (calls : list Callback) :
  requests (postMessage (userMessage text) :: postMessage thinking
            :: (log ++ map (fun call => postMessage (shown call)) calls)%list)
  = requests log.
Proof.
  change (requests (log ++ map (fun call => postMessage (shown call)) calls)%list
          = requests log).
  rewrite requests_append, requests_shown. apply app_nil_r.
Qed.

(** A prompt that passes both guards, in full: what the handler keeps, what
    it appends, and what it requests. *)
Lemma handle_full (w : World) (st : State) (text c : string) :
  Str.isBlank text = false ->
  secrets st = Some c ->
  Str.isEmpty c = false ->
  exists answers,
    secrets (stateAfter (_handleUserMessage w text) st) = secrets st
    /\ _messages (stateAfter (_handleUserMessage w text) st)
       = (_messages st ++ {| role := user; content := text |} :: answers)%list
    /\ forallb isAssistant answers = true
    /\ (ToBoolean (_orgId st) = true ->
        _orgId (stateAfter (_handleUserMessage w text) st) = _orgId st
        /\ forallb (fun r => negb (isOrganizationLookup r))
             (requests (logOf (_handleUserMessage w text) st)) = true)
    /\ (ToBoolean (_conversationId st) = true ->
        _conversationId (stateAfter (_handleUserMessage w text) st)
        = _conversationId st)
    /\ Forall (fun r => Cookie r = cookieHeader c)
         (requests (logOf (_handleUserMessage w text) st))
    /\ ascending (map stage (requests (logOf (_handleUserMessage w text) st))) = true
    /\ (forall r, In r (requests (logOf (_handleUserMessage w text) st)) ->
        stage r = 2 ->
        path r = "/api/organizations/"
                 ++ ToString (_orgId (stateAfter (_handleUserMessage w text) st))
                 ++ "/chat_conversations/"
                 ++ ToString (_conversationId (stateAfter (_handleUserMessage w text) st))
                 ++ "/completion"
        /\ body r = Some (VObject [("prompt", VString text);
                                   ("timezone", VString (timeZone w));
                                   ("attachments", VArray []);
                                   ("files", VArray [])])).
Proof.
  intros Htext Hsec Hne.
  assert (Hcookie : hasCookie (secrets st) = true).
  { unfold hasCookie, noCookie, getCookie. rewrite Hsec, Hne. reflexivity. }
  unfold stateAfter, logOf. rewrite (handle_accepted w st text Htext Hcookie). cbv zeta.
  destruct (try_full w
              (set_messages (_messages st ++ [{| role := user; content := text |}]) st)
              (_messages st) {| role := user; content := text |} c Hsec Hne eq_refl)
    as (o & st2 & log & -> & Hs & Hm & Horg & Hconv & Hck & Hasc & Hlast).
  cbn [set_messages secrets _messages _orgId _conversationId content] in Hs, Hm, Horg, Hconv, Hlast.
  destruct o as [calls|message|]; cbn [fst snd].
  - exists (replies calls EmptyString).
    rewrite requests_handled.
    cbn [set_messages secrets _messages _orgId _conversationId].
    rewrite Hm, <- app_assoc.
    repeat split; auto using replies_assistant; try (apply Hlast; assumption).
    + apply Horg; assumption.
    + apply Horg; assumption.
  - exists [].
    change (requests (postMessage (userMessage text) :: postMessage thinking :: log))
      with (requests log).
    rewrite Hm.
    repeat split; auto; try (apply Hlast; assumption).
    + apply Horg; assumption.
    + apply Horg; assumption.
  - exists [].
    change (requests (postMessage (userMessage text) :: postMessage thinking :: log))
      with (requests log).
    rewrite Hm.
    repeat split; auto; try (apply Hlast; assumption).
    + apply Horg; assumption.
    + apply Horg; assumption.
Qed.

(** The same for any state and any text: the two guards leave the state as
    it is and request nothing. *)
Lemma handle_any (w : World) (st : State) (text : string) :
  secrets (stateAfter (_handleUserMessage w text) st) = secrets st
  /\ (exists appended,
        _messages (stateAfter (_handleUserMessage w text) st)
        = (_messages st ++ appended)%list
        /\ (appended = []
            \/ exists answers,
                 appended = {| role := user; content := text |} :: answers
                 /\ forallb isAssistant answers = true))
  /\ (ToBoolean (_orgId st) = true ->
      _orgId (stateAfter (_handleUserMessage w text) st) = _orgId st
      /\ forallb (fun r => negb (isOrganizationLookup r))
           (requests (logOf (_handleUserMessage w text) st)) = true)
  /\ (ToBoolean (_conversationId st) = true ->
      _conversationId (stateAfter (_handleUserMessage w text) st)
      = _conversationId st)
  /\ (forall c, secrets st = Some c ->
      Forall (fun r => Cookie r = cookieHeader c)
        (requests (logOf (_handleUserMessage w text) st)))
  /\ (hasCookie (secrets st) = false ->
      requests (logOf (_handleUserMessage w text) st) = [])
  /\ ascending (map stage (requests (logOf (_handleUserMessage w text) st))) = true
  /\ (forall r, In r (requests (logOf (_handleUserMessage w text) st)) ->
      stage r = 2 ->
      path r = "/api/organizations/"
               ++ ToString (_orgId (stateAfter (_handleUserMessage w text) st))
               ++ "/chat_conversations/"
               ++ ToString (_conversationId (stateAfter (_handleUserMessage w text) st))
               ++ "/completion"
      /\ body r = Some (VObject [("prompt", VString text);
                                 ("timezone", VString (timeZone w));
                                 ("attachments", VArray []);
                                 ("files", VArray [])])).
Proof.
  assert (Hidle : forall log,
             _handleUserMessage w text st = (Returned tt, st, log) ->
             requests log = [] ->
             secrets (stateAfter (_handleUserMessage w text) st) = secrets st
             /\ (exists appended,
                   _messages (stateAfter (_handleUserMessage w text) st)
                   = (_messages st ++ appended)%list
                   /\ (appended = []
                       \/ exists answers,
                            appended = {| role := user; content := text |} :: answers
                            /\ forallb isAssistant answers = true))
             /\ (ToBoolean (_orgId st) = true ->
                 _orgId (stateAfter (_handleUserMessage w text) st) = _orgId st
                 /\ forallb (fun r => negb (isOrganizationLookup r))
                      (requests (logOf (_handleUserMessage w text) st)) = true)
             /\ (ToBoolean (_conversationId st) = true ->
                 _conversationId (stateAfter (_handleUserMessage w text) st)
                 = _conversationId st)
             /\ (forall c, secrets st = Some c ->
                 Forall (fun r => Cookie r = cookieHeader c)
                   (requests (logOf (_handleUserMessage w text) st)))
             /\ (hasCookie (secrets st) = false ->
                 requests (logOf (_handleUserMessage w text) st) = [])
             /\ ascending (map stage (requests (logOf (_handleUserMessage w text) st))) = true
             /\ (forall r, In r (requests (logOf (_handleUserMessage w text) st)) ->
                 stage r = 2 ->
                 path r = "/api/organizations/"
                          ++ ToString (_orgId (stateAfter (_handleUserMessage w text) st))
                          ++ "/chat_conversations/"
                          ++ ToString (_conversationId (stateAfter (_handleUserMessage w text) st))
                          ++ "/completion"
                 /\ body r = Some (VObject [("prompt", VString text);
                                            ("timezone", VString (timeZone w));
                                            ("attachments", VArray []);
                                            ("files", VArray [])]))).
  { intros log Hrun Hnone. unfold stateAfter, logOf. rewrite Hrun. cbn [fst snd].
    rewrite Hnone. split; [reflexivity|]. split.
    { exists []. split; [symmetry; apply app_nil_r | left; reflexivity]. }
    split; [intros _; split; reflexivity|]. split; [reflexivity|].
    split; [intros c _; constructor|]. split; [reflexivity|].
    split; [reflexivity|]. intros r []. }
  destruct (Str.isBlank text) eqn:Htext.
  { apply (Hidle []); [|reflexivity].
    unfold _handleUserMessage. rewrite trim_isEmpty, Htext. reflexivity. }
  destruct (hasCookie (secrets st)) eqn:Hcookie.
  - destruct (hasCookie_inv _ Hcookie) as (c & Hsec & Hne).
    destruct (handle_full w st text c Htext Hsec Hne)
      as (answers & Hs & Hm & Hanswers & Horg & Hconv & Hck & Hasc & Hlast).
    split; [exact Hs|]. split.
    { exists ({| role := user; content := text |} :: answers).
      split; [exact Hm|]. right. exists answers. split; [reflexivity | exact Hanswers]. }
    split; [exact Horg|]. split; [exact Hconv|]. split.
    { intros c' Hc'. rewrite Hsec in Hc'. injection Hc' as <-. exact Hck. }
    split; [discriminate|]. split; [exact Hasc | exact Hlast].
  - apply (Hidle [postMessage (error noCookieText)]); [|reflexivity].
    rewrite (handle_nonblank w text Htext).
    unfold bind, get. rewrite Hcookie. reflexivity.
Qed.

(** ** What one prompt does, whatever the state *)

(** The handler only ever appends to the history, and never writes the
    cookie store: the history it leaves is the one it found, followed
    either by nothing (the prompt was refused by a guard) or by the user
    message with the text as given and then assistant messages only. *)
Theorem prompt_appends_to_history (w : World) (st : State) (text : string) :
  secrets (stateAfter (_handleUserMessage w text) st) = secrets st
  /\ exists appended,
       _messages (stateAfter (_handleUserMessage w text) st)
       = (_messages st ++ appended)%list
       /\ (appended = []
           \/ exists answers,
                appended = {| role := user; content := text |} :: answers
                /\ forallb isAssistant answers = true).
Proof.
  destruct (handle_any w st text) as (Hs & Hm & _). split; [exact Hs | exact Hm].
Qed.

(** The requests of one prompt: at most the organization lookup, the
    creation of a conversation and the completion call, each at most once
    and in this order; every one carries the header of the stored cookie;
    and without a cookie there is none. *)
Theorem prompt_requests_in_order (w : World) (st : State) (text : string) :
  ascending (map stage (requests (logOf (_handleUserMessage w text) st))) = true
  /\ (forall c, secrets st = Some c ->
      Forall (fun r => Cookie r = cookieHeader c)
        (requests (logOf (_handleUserMessage w text) st)))
  /\ (hasCookie (secrets st) = false ->
      requests (logOf (_handleUserMessage w text) st) = []).
Proof.
  destruct (handle_any w st text) as (_ & _ & _ & _ & Hck & Hnone & Hasc & _).
  split; [exact Hasc|]. split; [exact Hck | exact Hnone].
Qed.


(** ** The answer that is recorded *)





(** ** The bootstrap, when the organization resolves *)

Lemma getOrganizationId_resolves (w : World) (c : string) (id : any) :
  Str.isEmpty c = false ->
  OrganizationResolves w id ->
  getOrganizationId (Some c) w
  = ([{| method := "GET"; path := "/api/organizations";
         Cookie := cookieHeader c; Accept := None; body := None |}],
     Returned id).
Proof.
  intros Hne [res first others H Hend Hparse Hid].
  unfold getOrganizationId, getCookie. rewrite Hne, H, Hend, Hparse.
  simpl. rewrite Hid. reflexivity.
Qed.


(** The steps up to the lookup of an organization that resolves to [id]. *)
Lemma lookup_resolves (w : World) (st1 : State) (c : string) (id : any) :
  secrets st1 = Some c ->
  Str.isEmpty c = false ->
  ToBoolean (_orgId st1) = false ->
  OrganizationResolves w id ->
  ensureOrganization w st1
  = (Returned tt, set_orgId id st1,
     [postMessage (status "Getting organization...");
      request {| method := "GET"; path := "/api/organizations";
                 Cookie := cookieHeader c; Accept := None; body := None |}]).
Proof.
  intros Hsec Hne Horg Hresolves.
  rewrite (ensureOrganization_lookup w st1 Horg). cbv zeta.
  rewrite Hsec, (getOrganizationId_resolves w c id Hne Hresolves). reflexivity.
Qed.

(** An organization entry without a usable [uuid] (none, [null], the empty
    string) passes the lookup: the value is stored as the organization as it
    is, and the prompt fails one step later, at the creation of the
    conversation, which issues no request and reports a missing cookie or
    organization. The user message stays in the history. *)
Theorem organization_without_id
    (w : World) (st : State) (text c : string) (id : any) :
  Str.isBlank text = false ->
  secrets st = Some c ->
  Str.isEmpty c = false ->
  ToBoolean (_orgId st) = false ->
  ToBoolean (_conversationId st) = false ->
  OrganizationResolves w id ->
  ToBoolean id = false ->
  _handleUserMessage w text st
  = (Returned tt,
     set_orgId id
       (set_messages (_messages st ++ [{| role := user; content := text |}])%list st),
     [postMessage (userMessage text);
      postMessage thinking;
      postMessage (status "Getting organization...");
      request {| method := "GET"; path := "/api/organizations";
                 Cookie := cookieHeader c; Accept := None; body := None |};
      postMessage (status "Starting conversation...");
      postMessage (error "Error: Missing cookie or org ID")]).
Proof.
  intros Htext Hsec Hne Horg Hconv Hresolves Hid.
  assert (Hcookie : hasCookie (secrets st) = true).
  { unfold hasCookie, noCookie, getCookie. rewrite Hsec, Hne. reflexivity. }
  rewrite (handle_accepted w st text Htext Hcookie). cbv zeta.
  set (st1 := set_messages _ st).
  pose proof (lookup_resolves w st1 c id Hsec Hne Horg Hresolves) as HA.
  pose proof (ensureConversation_create w (set_orgId id st1) Hconv) as HB.
  cbv zeta in HB.
  assert (Hcall : _createConversation (set_orgId id st1) w
                  = ([], Thrown "Missing cookie or org ID")).
  { unfold _createConversation, getCookie.
    change (secrets (set_orgId id st1)) with (secrets st).
    change (_orgId (set_orgId id st1)) with id.
    rewrite Hsec, Hne, Hid. reflexivity. }
  rewrite Hcall in HB. cbn [fst snd map] in HB.
  erewrite tryCatch_Thrown;
    [| eapply bind_Returned; [exact HA | eapply bind_Thrown; exact HB]
     | reflexivity].
  cbv iota. simpl replies. rewrite app_nil_r, set_messages_same. reflexivity.
Qed.


(** ** A panel over time *)

Lemma perform_keeps_organization (e : Event) (st : State) :
  ToBoolean (_orgId st) = true ->
  _orgId (stateAfter (perform e) st) = _orgId st
  /\ forallb (fun r => negb (isOrganizationLookup r))
       (requests (logOf (perform e) st)) = true.
Proof.
  intros Horg. destruct e as [message w input|input|]; simpl.
  - unfold onDidReceiveMessage.
    destruct (String.eqb (Incoming.type message) "sendMessage").
    { destruct (handle_any w st (Incoming.text message)) as (_ & _ & H & _).
      exact (H Horg). }
    destruct (String.eqb (Incoming.type message) "newConversation").
    { split; reflexivity. }
    destruct (String.eqb (Incoming.type message) "setCookie"); [|split; reflexivity].
    destruct input as [cookie|]; simpl; [|split; reflexivity].
    destruct (Str.isEmpty cookie); split; reflexivity.
  - destruct input as [cookie|]; simpl; [|split; reflexivity].
    destruct (Str.isEmpty cookie); split; reflexivity.
  - split; reflexivity.
Qed.

Lemma perform_keeps_cookie (e : Event) (st : State) :
  writesCookie e = false ->
  secrets (stateAfter (perform e) st) = secrets st.
Proof.
  destruct e as [message w input|input|]; simpl; try discriminate.
  intros Hset. unfold onDidReceiveMessage.
  destruct (String.eqb (Incoming.type message) "sendMessage").
  { exact (proj1 (handle_any w st (Incoming.text message))). }
  destruct (String.eqb (Incoming.type message) "newConversation"); [reflexivity|].
  rewrite Hset. reflexivity.
Qed.

(** An organization the panel holds is held for good: whatever happens
    afterwards, one event after the other (prompts, new conversations, the
    cookie cleared or replaced by another), the organization stays the same
    and no organization lookup is issued again. *)
Theorem organization_outlives_cookie (events : list Event) (st : State) :
  ToBoolean (_orgId st) = true ->
  _orgId (fst (performAll events st)) = _orgId st
  /\ forallb (fun r => negb (isOrganizationLookup r))
       (requests (snd (performAll events st))) = true.
Proof.
  revert st. induction events as [|e events IH]; intros st Horg.
  - split; reflexivity.
  - destruct (perform_keeps_organization e st Horg) as [Hsame Hnone].
    simpl. specialize (IH (stateAfter (perform e) st)).
    destruct (performAll events (stateAfter (perform e) st)) as [st' log'].
    rewrite Hsame in IH. destruct (IH Horg) as [IHsame IHnone].
    cbn [fst snd] in *. split; [exact IHsame|].
    rewrite requests_append, forallb_app, Hnone, IHnone. reflexivity.
Qed.

(** The cookie store is written by the cookie commands only: a run of
    prompts, new conversations and messages of any other type leaves the
    stored cookie as it was. *)
Theorem cookie_written_by_commands_only (events : list Event) (st : State) :
  forallb (fun e => negb (writesCookie e)) events = true ->
  secrets (fst (performAll events st)) = secrets st.
Proof.
  revert st. induction events as [|e events IH]; intros st; [reflexivity|].
  simpl. intros H. apply andb_true_iff in H as [He Hevents].
  apply negb_true_iff in He.
  specialize (IH (stateAfter (perform e) st) Hevents).
  destruct (performAll events (stateAfter (perform e) st)) as [st' log'].
  cbn [fst] in *. rewrite IH. apply perform_keeps_cookie, He.
Qed.

End Prompts.

(** ** Line endings *)

Lemma startsWith_CR (l : string) :
  Str.startsWith "data: " (l ++ CR) = Str.startsWith "data: " l.
Proof.
  unfold Str.startsWith, CR.
  destruct l as [|c1 [|c2 [|c3 [|c4 [|c5 [|c6 l]]]]]]; cbn -[ascii_dec];
    repeat match goal with
           | |- context [ascii_dec ?a ?b] => destruct (ascii_dec a b); try congruence
           end.
  destruct l; reflexivity.
Qed.

Lemma slice_payload (l s : string) :
  Str.startsWith "data: " l = true ->
  Str.slice 6 (l ++ s) = Str.slice 6 l ++ s.
Proof.
  unfold Str.startsWith.
  destruct l as [|c1 [|c2 [|c3 [|c4 [|c5 [|c6 l]]]]]]; cbn -[ascii_dec];
    repeat match goal with
           | |- context [ascii_dec ?a ?b] => destruct (ascii_dec a b); try discriminate
           end;
    try discriminate.
  intros _. reflexivity.
Qed.

Lemma trimStart_app (s t : string) :
  Str.isBlank s = false -> Str.trimStart (s ++ t) = Str.trimStart s ++ t.
Proof.
  induction s as [|c s IH]; simpl; [discriminate|].
  destruct (Str.isWhiteSpace c); simpl; [exact IH | reflexivity].
Qed.

Lemma trimStart_app_blank (s t : string) :
  Str.isBlank s = true -> Str.trimStart (s ++ t) = Str.trimStart t.
Proof.
  induction s as [|c s IH]; simpl; [reflexivity|].
  destruct (Str.isWhiteSpace c); simpl; [exact IH | discriminate].
Qed.

Lemma trimEnd_CR (s : string) : Str.trimEnd (s ++ CR) = Str.trimEnd s.
Proof.
  induction s as [|c s IH]; [reflexivity|].
  simpl. rewrite IH. reflexivity.
Qed.

Lemma trim_CR (s : string) : Str.trim (s ++ CR) = Str.trim s.
Proof.
  unfold Str.trim. destruct (Str.isBlank s) eqn:Hb.
  - rewrite (trimStart_app_blank s CR Hb), (trimStart_blank s Hb). reflexivity.
  - rewrite (trimStart_app s CR Hb). apply trimEnd_CR.
Qed.

Lemma removelast_map {A B : Type} (f : A -> B) (l : list A) :
  removelast (map f l) = map f (removelast l).
Proof.
  induction l as [|x [|y l] IH]; [reflexivity | reflexivity |].
  change (f x :: removelast (map f (y :: l)) = f x :: map f (removelast (y :: l))).
  rewrite IH. reflexivity.
Qed.

Lemma split_line (sep : ascii) (l rest : string) :
  Str.includes sep l = false ->
  Str.split sep (l ++ String sep rest) = l :: Str.split sep rest.
Proof.
  induction l as [|c l IH].
  - intros _. simpl. rewrite Ascii.eqb_refl. reflexivity.
  - simpl. intros H. apply orb_false_iff in H as [Hc Hl].
    rewrite Ascii.eqb_sym, Hc, (IH Hl). reflexivity.
Qed.

Lemma completeLines_withEndings (lines : list string) :
  forallb (fun l => negb (Str.includes Str.LF l)) lines = true ->
  completeLines (withEndings (String Str.LF EmptyString) lines) = lines.
Proof.
  intros H.
  assert (Hsplit : Str.split Str.LF (withEndings (String Str.LF EmptyString) lines)
                   = (lines ++ [EmptyString])%list).
  { induction lines as [|l lines IH]; [reflexivity|].
    simpl in H. apply andb_true_iff in H as [Hl Hlines]. apply negb_true_iff in Hl.
    change (withEndings (String Str.LF EmptyString) (l :: lines))
      with (l ++ String Str.LF (withEndings (String Str.LF EmptyString) lines)).
    rewrite (split_line Str.LF _ _ Hl), (IH Hlines). reflexivity. }
  unfold completeLines, pop. rewrite Hsplit. simpl. apply removelast_last.
Qed.

Lemma withEndings_CRLF (lines : list string) :
  withEndings CRLF lines
  = withEndings (String Str.LF EmptyString) (map (fun l => l ++ CR) lines).
Proof.
  induction lines as [|l lines IH]; [reflexivity|].
  simpl. rewrite IH. unfold CR. rewrite append_assoc. reflexivity.
Qed.

Section LineEndings.

Context {host : Host}.

Lemma isTerminator_CR (l : string) : isTerminator (l ++ CR) = isTerminator l.
Proof.
  unfold isTerminator. rewrite startsWith_CR.
  destruct (Str.startsWith "data: " l) eqn:Hp; [|reflexivity].
  rewrite (slice_payload l CR Hp), trim_CR. reflexivity.
Qed.

Lemma forLines_CR (lines : list string) :
  forLines (map (fun l => l ++ CR) lines) = forLines lines.
Proof.
  induction lines as [|l lines IH]; [reflexivity|].
  change (map (fun l => l ++ CR) (l :: lines))
    with ((l ++ CR) :: map (fun l => l ++ CR) lines).
  rewrite !forLines_cons, startsWith_CR, IH.
  destruct (Str.startsWith "data: " l) eqn:Hp; [|reflexivity].
  rewrite (slice_payload l CR Hp), trim_CR. reflexivity.
Qed.

(** The decoder on the text of a whole response: when it is made of lines
    that all end in a line feed, or all in a carriage return and a line
    feed, and no line before the last is a terminator, then, however the
    text is cut into the texts of chunks, the callbacks are those of the
    loop over the lines; the carriage returns change nothing. *)
Theorem line_endings_do_not_matter (lines chunks : list string) :
  forallb (fun l => negb (Str.includes Str.LF l)) lines = true ->
  existsb isTerminator (removelast lines) = false ->
  bodyOf chunks = withEndings CRLF lines
  \/ bodyOf chunks = withEndings (String Str.LF EmptyString) lines ->
  onDataEvents EmptyString chunks = forLines lines.
Proof.
  intros Hlines Hterm Hbody.
  assert (Hcr : forallb (fun l => negb (Str.includes Str.LF l))
                  (map (fun l => l ++ CR) lines) = true).
  { clear Hterm Hbody. induction lines as [|l lines IH]; [reflexivity|].
    simpl in *. apply andb_true_iff in Hlines as [Hl Hrest].
    rewrite includes_app. apply negb_true_iff in Hl. rewrite Hl, (IH Hrest).
    reflexivity. }
  assert (Hcomplete : completeLines (bodyOf chunks) = lines
                      \/ completeLines (bodyOf chunks) = map (fun l => l ++ CR) lines).
  { destruct Hbody as [-> | ->].
    - right. rewrite withEndings_CRLF. apply completeLines_withEndings, Hcr.
    - left. apply completeLines_withEndings, Hlines. }
  rewrite (onDataEvents_whole chunks EmptyString eq_refl).
  - change (EmptyString ++ bodyOf chunks) with (bodyOf chunks).
    destruct Hcomplete as [-> | ->]; [reflexivity | apply forLines_CR].
  - change (EmptyString ++ bodyOf chunks) with (bodyOf chunks).
    destruct Hcomplete as [-> | ->]; [exact Hterm|].
    rewrite removelast_map. rewrite <- Hterm.
    clear. induction (removelast lines) as [|l rest IH]; [reflexivity|].
    simpl. rewrite isTerminator_CR, IH. reflexivity.
Qed.

End LineEndings.

(** ** The panel and the script of its webview *)

Section Page.

Context {host : Host}.

Lemma onMessages_cons (msg : WebviewMessage) (msgs : list WebviewMessage)
    (wv : Webview.t) :
  Webview.onMessages (msg :: msgs) wv
  = (fst (Webview.onMessages msgs (fst (Webview.onMessage msg wv))),
     (snd (Webview.onMessage msg wv)
      ++ snd (Webview.onMessages msgs (fst (Webview.onMessage msg wv))))%list).
Proof.
  cbn [Webview.onMessages].
  destruct (Webview.onMessage msg wv) as [wv1 dom1]. cbn [fst snd].
  destruct (Webview.onMessages msgs wv1) as [wv2 dom2]. reflexivity.
Qed.

Lemma onMessages_app (l1 l2 : list WebviewMessage) (wv : Webview.t) :
  Webview.onMessages (l1 ++ l2) wv
  = (fst (Webview.onMessages l2 (fst (Webview.onMessages l1 wv))),
     (snd (Webview.onMessages l1 wv)
      ++ snd (Webview.onMessages l2 (fst (Webview.onMessages l1 wv))))%list).
Proof.
  revert wv. induction l1 as [|msg l1 IH]; intros wv.
  - cbn [app Webview.onMessages fst snd].
    destruct (Webview.onMessages l2 wv). reflexivity.
  - rewrite <- app_comm_cons, !onMessages_cons, IH. cbn [fst snd].
    rewrite app_assoc. reflexivity.
Qed.



Lemma terminal_releases (final : WebviewMessage) (wv : Webview.t) :
  isTerminal final = true ->
  Webview.isWaiting (fst (Webview.onMessage final wv)) = false
  /\ Webview.sendDisabled (fst (Webview.onMessage final wv)) = false.
Proof.
  destruct final; try discriminate; intros _; cbn.
  - destruct (Webview.currentAssistantBubble wv); split; reflexivity.
  - split; reflexivity.
Qed.

(** A prompt whose exchanges settle posts a [done] or an [error] last, with a
    cookie or without. *)
Lemma posted_ends_with_terminal (w : World) (st : State) (text : string) :
  Str.isBlank text = false ->
  settles (organizations w) = true ->
  settles (chat_conversations w) = true ->
  plain (completion w) = true ->
  exists before final,
    posted (logOf (_handleUserMessage w text) st) = (before ++ [final])%list
    /\ isTerminal final = true.
Proof.
  intros Htext Horgs Hconvs Hplain.
  destruct (hasCookie (secrets st)) eqn:Hcookie.
  - unfold logOf. rewrite (handle_accepted w st text Htext Hcookie). cbv zeta.
    destruct (try_shape w (set_messages (_messages st ++ [{| role := user; content := text |}]) st)
                (_messages st) {| role := user; content := text |} Hcookie eq_refl)
      as (o & st2 & log & -> & _ & Hshape).
    destruct o as [calls|message|].
    + destruct Hshape as (pre & Hpre & [[-> Hlog] | [-> [message Hlog]]]).
      * destruct (onExchange_plain _ Hplain) as (chunks & final & -> & Hchunks & Hfinal).
        exists (userMessage text :: thinking
                :: pre ++ [startAssistantMessage] ++ map shown chunks)%list,
               (shown final).
        cbn [snd]. split.
        -- cbn [posted flat_map app].
           change (flat_map _ (log ++ ?l)%list) with (posted (log ++ l)%list).
           rewrite posted_app, Hlog, posted_shown, map_app.
           rewrite <- !app_assoc. reflexivity.
        -- destruct final; try discriminate; reflexivity.
      * exists (userMessage text :: thinking :: pre), (error ("Error: " ++ message)).
        cbn [snd]. split; [|reflexivity].
        cbn [posted flat_map app].
        change (flat_map _ (log ++ ?l)%list) with (posted (log ++ l)%list).
        rewrite posted_app, Hlog, app_nil_r. reflexivity.
    + contradiction.
    + destruct Hshape as [_ Hcut]. rewrite Horgs, Hconvs in Hcut. discriminate.
  - exists [], (error noCookieText). split; [|reflexivity].
    unfold logOf. rewrite (handle_nonblank w text Htext).
    unfold bind, get. rewrite Hcookie. reflexivity.
Qed.

(** The send button is given back: when the exchanges of a prompt settle
    (no bootstrap exchange cut off, a streaming exchange with no terminator
    line that, at 400 and above, ends), the script that has received all the
    messages of the prompt is no longer waiting and its send button is
    enabled, whatever its state was. *)
Theorem prompt_releases_send_button
    (w : World) (st : State) (text : string) (wv : Webview.t) :
  Str.isBlank text = false ->
  settles (organizations w) = true ->
  settles (chat_conversations w) = true ->
  plain (completion w) = true ->
  Webview.isWaiting
    (fst (Webview.onMessages (posted (logOf (_handleUserMessage w text) st)) wv)) = false
  /\ Webview.sendDisabled
       (fst (Webview.onMessages (posted (logOf (_handleUserMessage w text) st)) wv)) = false.
Proof.
  intros Htext Horgs Hconvs Hplain.
  destruct (posted_ends_with_terminal w st text Htext Horgs Hconvs Hplain)
    as (before & final & -> & Hfinal).
  rewrite onMessages_app. cbn [fst].
  rewrite onMessages_cons. cbn [fst Webview.onMessages].
  apply terminal_releases, Hfinal.
Qed.


Lemma isBlank_trim (s : string) : Str.isBlank (Str.trim s) = Str.isBlank s.
Proof. rewrite <- !trim_isEmpty, trim_trim. reflexivity. Qed.

(** What the send button posts: the text of the input, trimmed, and only
    when it is not blank and the script is not waiting. The handler of the
    panel never takes such a prompt for a blank one (it posts something
    back), and the script sends nothing more before it is released. *)
Theorem typed_prompt_arrives_trimmed
    (wv wv' : Webview.t) (dom : list Webview.Dom) (message : Incoming.t) :
  Webview.sendMessage wv = (wv', dom, Some message) ->
  Webview.isWaiting wv = false
  /\ Incoming.type message = "sendMessage"
  /\ Incoming.text message = Str.trim (Webview.input wv)
  /\ Str.trim (Incoming.text message) = Incoming.text message
  /\ Str.isBlank (Incoming.text message) = false
  /\ Webview.sendMessage wv' = (wv', [], None)
  /\ forall w answer st,
       exists first rest,
         posted (logOf (onDidReceiveMessage message w answer) st) = first :: rest.
Proof.
  unfold Webview.sendMessage.
  destruct (Webview.isWaiting wv) eqn:Hwaiting; [discriminate|].
  destruct (Str.isEmpty (Str.trim (Webview.input wv))) eqn:Hempty; [discriminate|].
  intros H. injection H as <- <- <-.
  assert (Hblank : Str.isBlank (Str.trim (Webview.input wv)) = false).
  { rewrite isBlank_trim, <- trim_isEmpty. exact Hempty. }
  cbn [Incoming.type Incoming.text Webview.isWaiting].
  repeat split; auto using trim_trim.
  intros w answer st. unfold onDidReceiveMessage.
  cbn [Incoming.type Incoming.text String.eqb Ascii.eqb Bool.eqb].
  change (String.eqb "sendMessage" "sendMessage") with true. cbv iota.
  unfold logOf.
  destruct (hasCookie (secrets st)) eqn:Hcookie.
  - rewrite (handle_accepted w st _ Hblank Hcookie). cbv zeta.
    destruct (tryCatch _ _ _) as [[[calls|m|] st2] log]; cbn; eauto.
  - rewrite (handle_nonblank w _ Hblank). unfold bind, get. rewrite Hcookie.
    cbn. eauto.
Qed.

End Page.

(** ** The chunks as [Buffer]s *)

Lemma toString_cons (lead : Byte.byte) (rest : Buffer.t) :
  Buffer.toString (lead :: rest)
  = if (Byte.to_N lead <? 128)%N then
      text <-? Buffer.toString rest ;;
      Some (String (ascii_of_N (Byte.to_N lead)) text)
    else if (Byte.to_N lead =? 194)%N || (Byte.to_N lead =? 195)%N then
      match rest with
      | continuation :: rest' =>
          if (128 <=? Byte.to_N continuation)%N && (Byte.to_N continuation <? 192)%N
          then
            text <-? Buffer.toString rest' ;;
            Some (String (ascii_of_N ((Byte.to_N lead - 192) * 64
                                      + (Byte.to_N continuation - 128))) text)
          else None
      | [] => None
      end
    else None.
Proof. reflexivity. Qed.

(** Two [Buffer]s that decode on their own decode, put together, to the two
    texts put together. *)
Lemma toString_app (a b : Buffer.t) (x y : string) :
  Buffer.toString a = Some x ->
  Buffer.toString b = Some y ->
  Buffer.toString (a ++ b)%list = Some (x ++ y).
Proof.
  intros Ha Hb.
  assert (H : forall n (a : Buffer.t) x,
             (length a <= n)%nat ->
             Buffer.toString a = Some x ->
             Buffer.toString (a ++ b)%list = Some (x ++ y)).
  { clear a x Ha. induction n as [|n IH]; intros a x Hlen Ha.
    - destruct a; [|inversion Hlen]. injection Ha as <-. exact Hb.
    - destruct a as [|lead rest]; [injection Ha as <-; exact Hb|].
      rewrite <- app_comm_cons. rewrite toString_cons in Ha |- *.
      simpl in Hlen.
      destruct (Byte.to_N lead <? 128)%N.
      + destruct (Buffer.toString rest) as [text|] eqn:Hrest; [|discriminate].
        injection Ha as <-.
        rewrite (IH rest text ltac:(lia) Hrest). reflexivity.
      + destruct ((Byte.to_N lead =? 194)%N || (Byte.to_N lead =? 195)%N);
          [|discriminate].
        destruct rest as [|continuation rest']; [discriminate|].
        rewrite <- app_comm_cons.
        destruct ((128 <=? Byte.to_N continuation)%N
                  && (Byte.to_N continuation <? 192)%N); [|discriminate].
        destruct (Buffer.toString rest') as [text|] eqn:Hrest; [|discriminate].
        injection Ha as <-. simpl in Hlen.
        rewrite (IH rest' text ltac:(lia) Hrest). reflexivity. }
  exact (H (length a) a x (le_n _) Ha).
Qed.

Lemma texts_bodyOf (chunks : list Buffer.t) (decoded : list string) :
  Buffer.texts chunks = Some decoded ->
  Buffer.toString (concat chunks) = Some (bodyOf decoded).
Proof.
  revert decoded. induction chunks as [|bytes chunks IH]; intros decoded H.
  - injection H as <-. reflexivity.
  - simpl in H. destruct (Buffer.toString bytes) as [text|] eqn:Hbytes; [|discriminate].
    simpl in H. destruct (Buffer.texts chunks) as [others|]; [|discriminate].
    injection H as <-. simpl.
    exact (toString_app _ _ _ _ Hbytes (IH others eq_refl)).
Qed.

Section ChunksAsBuffers.

Context {host : Host}.

(** Chunk boundaries, on the [Buffer]s the listener gets. When every
    [Buffer] decodes on its own (no boundary falls inside a character
    encoded on several bytes) and no complete line of the text before its
    last complete line is a terminator: the callbacks are those of the loop
    over the complete lines of the whole text, the same as for the whole
    body in one [Buffer], wherever the boundaries fall otherwise. *)
Theorem buffer_boundary_independence
    (chunks : list Buffer.t) (decoded : list string) :
  Buffer.texts chunks = Some decoded ->
  existsb isTerminator (removelast (completeLines (bodyOf decoded))) = false ->
  onDataBuffers EmptyString chunks
  = Some (forLines (completeLines (bodyOf decoded)))
  /\ onDataBuffers EmptyString [concat chunks] = onDataBuffers EmptyString chunks.
Proof.
  intros Hdecoded Hterm.
  assert (Hchunks : onDataBuffers EmptyString chunks
                    = Some (forLines (completeLines (bodyOf decoded)))).
  { unfold onDataBuffers. rewrite Hdecoded. cbn [obind].
    rewrite (onDataEvents_whole decoded EmptyString eq_refl Hterm). reflexivity. }
  split; [exact Hchunks|]. rewrite Hchunks.
  unfold onDataBuffers. cbn [Buffer.texts]. rewrite (texts_bodyOf _ _ Hdecoded).
  cbn [obind].
  rewrite (onDataEvents_whole [bodyOf decoded] EmptyString eq_refl);
    cbn [bodyOf fold_right]; rewrite append_empty_r; [reflexivity | exact Hterm].
Qed.

(** Line endings, on the [Buffer]s the listener gets. When every [Buffer]
    decodes on its own and the text they add up to is made of lines that all
    end in a line feed, or all in a carriage return and a line feed, with no
    terminator before the last line: the callbacks are those of the loop
    over the lines; the carriage returns change nothing. *)
Theorem line_endings_in_buffers
    (lines : list string) (chunks : list Buffer.t) (decoded : list string) :
  Buffer.texts chunks = Some decoded ->
  forallb (fun l => negb (Str.includes Str.LF l)) lines = true ->
  existsb isTerminator (removelast lines) = false ->
  bodyOf decoded = withEndings CRLF lines
  \/ bodyOf decoded = withEndings (String Str.LF EmptyString) lines ->
  onDataBuffers EmptyString chunks = Some (forLines lines).
Proof.
  intros Hdecoded Hlines Hterm Hbody.
  unfold onDataBuffers. rewrite Hdecoded. cbn [obind]. f_equal.
  exact (line_endings_do_not_matter lines decoded Hlines Hterm Hbody).
Qed.

End ChunksAsBuffers.

(** ** A prompt in flight *)

Section Undisturbed.

Context {host : Host}.

Lemma awaitWhile_undisturbed {A : Type} (p : Await)
    (call : list Request * Outcome A) (st : State) :
  awaitWhile undisturbed p call st = await call st.
Proof.
  unfold awaitWhile, bind, await, meanwhile, undisturbed, ret. cbn [fst snd].
  destruct (fst call) as [|r rest]; cbn; destruct (snd call); cbn;
    rewrite ?app_nil_r; reflexivity.
Qed.

Lemma bind_ext {A B : Type} (c1 c2 : M A) (k1 k2 : A -> M B) (st : State) :
  (forall st, c1 st = c2 st) ->
  (forall a st, k1 a st = k2 a st) ->
  bind c1 k1 st = bind c2 k2 st.
Proof.
  intros Hc Hk. unfold bind. rewrite Hc.
  destruct (c2 st) as [[[a|message|] st'] log]; try reflexivity.
  rewrite Hk. reflexivity.
Qed.

Lemma tryCatch_ext {A : Type} (c1 c2 : M A) (handler : string -> M A) (st : State) :
  (forall st, c1 st = c2 st) ->
  tryCatch c1 handler st = tryCatch c2 handler st.
Proof. intros Hc. unfold tryCatch. rewrite Hc. reflexivity. Qed.

(** With nothing happening at its awaits, the handler in flight is the
    handler run on its own. *)
Lemma undisturbed_is_sequential (w : World) (text : string) (st : State) :
  _handleUserMessageWhile undisturbed w text st = _handleUserMessage w text st.
Proof.
  unfold _handleUserMessageWhile, _handleUserMessage.
  destruct (Str.isEmpty (Str.trim text)); [reflexivity|].
  apply bind_ext; [reflexivity|]. intros st0 st1.
  destruct (negb (hasCookie (secrets st0))); [reflexivity|].
  apply bind_ext; [reflexivity|]. intros _ st2.
  apply bind_ext; [reflexivity|]. intros _ st3.
  apply bind_ext; [reflexivity|]. intros _ st4.
  apply bind_ext; [|reflexivity]. intros st5.
  apply tryCatch_ext. intros st6.
  apply bind_ext.
  { intros st7. unfold ensureOrganizationWhile, ensureOrganization.
    apply bind_ext; [reflexivity|]. intros st8 st9.
    destruct (negb (ToBoolean (_orgId st8))); [|reflexivity].
    apply bind_ext; [reflexivity|]. intros _ st10.
    apply bind_ext; [|reflexivity]. intros st11. apply awaitWhile_undisturbed. }
  intros _ st7. apply bind_ext.
  { intros st8. unfold ensureConversationWhile, ensureConversation.
    apply bind_ext; [reflexivity|]. intros st9 st10.
    destruct (negb (ToBoolean (_conversationId st9))); [|reflexivity].
    apply bind_ext; [reflexivity|]. intros _ st11.
    apply bind_ext; [|reflexivity]. intros st12. apply awaitWhile_undisturbed. }
  intros _ st8. unfold bind at 1.
  destruct (dispatch w st8) as [[[calls|message|] st'] log]; try reflexivity.
  cbn. rewrite app_nil_r. reflexivity.
Qed.

End Undisturbed.

(** * Further runs *)

(** A random source that counts up. *)
Lemma generateUUID_is_version4_run :
  Uuid.generateUUID (fun i => (N.of_nat i mod 16)%N)
  = "01234567-89ab-4cde-b012-3456789abcde"
  /\ Uuid.isVersion4 (Uuid.generateUUID (fun i => (N.of_nat i mod 16)%N)) = true
  /\ String.length (Uuid.generateUUID (fun i => (N.of_nat i mod 16)%N)) = 36.
Proof.
  split; [reflexivity|].
  apply (generateUUID_is_version4 (fun i => (N.of_nat i mod 16)%N)).
  intros i. apply N.mod_lt. discriminate.
Defined.

(** A text that holds an entity already. *)
Lemma escapeHtml_injective_run :
  Markup.escapeHtml "a &lt; b" = "a &amp;lt; b"
  /\ "a &lt; b" = "a &lt; b".
Proof.
  split; [reflexivity|].
  apply (escapeHtml_injective "a &lt; b" "a &lt; b"). reflexivity.
Defined.

Section FurtherRuns.

Import Scenario.

#[local] Existing Instance RefHost.host.

(** A terminator line between two data lines. *)
Lemma terminator_stops_its_chunk_run :
  existsb isTerminator [legacyLine "Hi"] = false
  /\ isTerminator "data: [DONE]" = true
  /\ forLines ([legacyLine "Hi"] ++ "data: [DONE]" :: [legacyLine "late"])
     = (forLines [legacyLine "Hi"] ++ [onDone])%list.
Proof.
  split; [reflexivity|]. split; [reflexivity|].
  apply (terminator_stops_its_chunk [legacyLine "Hi"] "data: [DONE]"
           [legacyLine "late"]); reflexivity.
Defined.

(** A line that arrives in two pieces: nothing happens at the first. *)
Lemma unfinished_line_is_kept_run :
  Str.includes Str.LF "data: " = false
  /\ Str.includes Str.LF (Str.dq "{'comple") = false
  /\ onData "data: " (Str.dq "{'comple") = ("data: " ++ Str.dq "{'comple", []).
Proof.
  split; [reflexivity|]. split; [reflexivity|].
  apply (unfinished_line_is_kept "data: " (Str.dq "{'comple")); reflexivity.
Defined.



(** An account whose first organization has no [uuid]. *)
Lemma organization_without_id_run :
  OrganizationResolves
    {| organizations := ok [Str.dq "[{'name':'Personal'}]"];
       chat_conversations := ok [Str.dq "{'uuid':'conv-1'}"];
       completion := ok hello;
       uuid := "3f2b8c1e-7a4d-4e59-9b06-5d1c2a7e8f40";
       timeZone := "Europe/Paris" |}
    VUndefined
  /\ _handleUserMessage
       {| organizations := ok [Str.dq "[{'name':'Personal'}]"];
          chat_conversations := ok [Str.dq "{'uuid':'conv-1'}"];
          completion := ok hello;
          uuid := "3f2b8c1e-7a4d-4e59-9b06-5d1c2a7e8f40";
          timeZone := "Europe/Paris" |}
       "hi" (opened (Some "sk-1"))
     = (Returned tt,
        set_orgId VUndefined
          (set_messages [{| role := user; content := "hi" |}] (opened (Some "sk-1"))),
        [postMessage (userMessage "hi");
         postMessage thinking;
         postMessage (status "Getting organization...");
         request {| method := "GET"; path := "/api/organizations";
                    Cookie := cookieHeader "sk-1"; Accept := None; body := None |};
         postMessage (status "Starting conversation...");
         postMessage (error "Error: Missing cookie or org ID")]).
Proof.
  assert (Hresolves :
            OrganizationResolves
              {| organizations := ok [Str.dq "[{'name':'Personal'}]"];
                 chat_conversations := ok [Str.dq "{'uuid':'conv-1'}"];
                 completion := ok hello;
                 uuid := "3f2b8c1e-7a4d-4e59-9b06-5d1c2a7e8f40";
                 timeZone := "Europe/Paris" |}
              VUndefined).
  { apply resolves
      with (res := {| statusCode := 200; data := [Str.dq "[{'name':'Personal'}]"];
                      finish := end_ |})
           (first := VObject [("name", VString "Personal")]) (others := []);
      reflexivity. }
  split; [exact Hresolves|].
  apply (organization_without_id _ (opened (Some "sk-1")) "hi" "sk-1" VUndefined
           eq_refl eq_refl eq_refl eq_refl eq_refl Hresolves eq_refl).
Defined.


(** In the middle of a conversation the cookie is cleared, another is
    stored, and a prompt is sent. *)
Lemma organization_outlives_cookie_run :
  ToBoolean (_orgId talking) = true
  /\ _orgId (fst (performAll
                    [runClearCookie;
                     runSetCookie (Some "sessionKey=sk-ant-sid02");
                     fromWebview {| Incoming.type := "sendMessage";
                                    Incoming.text := "again" |}
                       (world (ok hello)) None]
                    talking))
     = VString "org-1".
Proof.
  split; [reflexivity|].
  apply (organization_outlives_cookie
           [runClearCookie;
            runSetCookie (Some "sessionKey=sk-ant-sid02");
            fromWebview {| Incoming.type := "sendMessage"; Incoming.text := "again" |}
              (world (ok hello)) None]
           talking).
  reflexivity.
Defined.

(** A prompt, then a new conversation. *)
Lemma cookie_written_by_commands_only_run :
  secrets (fst (performAll
                  [fromWebview {| Incoming.type := "sendMessage";
                                  Incoming.text := "again" |}
                     (world (ok hello)) None;
                   fromWebview {| Incoming.type := "newConversation";
                                  Incoming.text := EmptyString |}
                     (world (ok hello)) None]
                  talking))
  = Some "sessionKey=sk-ant-sid01".
Proof.
  apply (cookie_written_by_commands_only
           [fromWebview {| Incoming.type := "sendMessage"; Incoming.text := "again" |}
              (world (ok hello)) None;
            fromWebview {| Incoming.type := "newConversation";
                           Incoming.text := EmptyString |}
              (world (ok hello)) None]
           talking).
  reflexivity.
Defined.

(** The body of the legacy scenario with carriage returns, cut in the
    middle of its first line. *)
Lemma line_endings_do_not_matter_run :
  bodyOf [Str.dq "data: {'comple";
          Str.dq "tion':'Hi'}" ++ CRLF ++ "data: [DONE]" ++ CRLF]
  = withEndings CRLF [Str.dq "data: {'completion':'Hi'}"; "data: [DONE]"]
  /\ forLines [Str.dq "data: {'completion':'Hi'}"; "data: [DONE]"]
     = [onChunk (VString "Hi"); onDone]
  /\ onDataEvents EmptyString
       [Str.dq "data: {'comple";
        Str.dq "tion':'Hi'}" ++ CRLF ++ "data: [DONE]" ++ CRLF]
     = forLines [Str.dq "data: {'completion':'Hi'}"; "data: [DONE]"].
Proof.
  split; [reflexivity|]. split; [reflexivity|].
  apply (line_endings_do_not_matter
           [Str.dq "data: {'completion':'Hi'}"; "data: [DONE]"]
           [Str.dq "data: {'comple";
            Str.dq "tion':'Hi'}" ++ CRLF ++ "data: [DONE]" ++ CRLF]).
  - reflexivity.
  - reflexivity.
  - left. reflexivity.
Defined.

(** The script after the send button was used, and the scenario with a
    stream that ends without a terminator line. *)
Lemma prompt_releases_send_button_run :
  plain (ok [deltaLine "Hel"; deltaLine "lo"]) = true
  /\ Webview.isWaiting
       (fst (Webview.onMessages
               (posted (logOf (_handleUserMessage
                                 (world (ok [deltaLine "Hel"; deltaLine "lo"])) "hi")
                          (opened (Some "sk-1"))))
               {| Webview.isWaiting := true;
                  Webview.currentAssistantBubble := false;
                  Webview.currentAssistantText := EmptyString;
                  Webview.input := EmptyString;
                  Webview.sendDisabled := true |})) = false.
Proof.
  split; [reflexivity|].
  apply (prompt_releases_send_button
           (world (ok [deltaLine "Hel"; deltaLine "lo"])) (opened (Some "sk-1")) "hi"
           {| Webview.isWaiting := true;
              Webview.currentAssistantBubble := false;
              Webview.currentAssistantText := EmptyString;
              Webview.input := EmptyString;
              Webview.sendDisabled := true |});
    reflexivity.
Defined.


(** A prompt typed with blanks around it. *)
Lemma typed_prompt_arrives_trimmed_run :
  Webview.sendMessage
    {| Webview.isWaiting := false;
       Webview.currentAssistantBubble := false;
       Webview.currentAssistantText := EmptyString;
       Webview.input := "  hi  ";
       Webview.sendDisabled := false |}
  = ({| Webview.isWaiting := true;
        Webview.currentAssistantBubble := false;
        Webview.currentAssistantText := EmptyString;
        Webview.input := EmptyString;
        Webview.sendDisabled := true |},
     [Webview.autoResize],
     Some {| Incoming.type := "sendMessage"; Incoming.text := "hi" |})
  /\ Str.isBlank "hi" = false.
Proof.
  split; [reflexivity|].
  destruct (typed_prompt_arrives_trimmed
           {| Webview.isWaiting := false;
              Webview.currentAssistantBubble := false;
              Webview.currentAssistantText := EmptyString;
              Webview.input := "  hi  ";
              Webview.sendDisabled := false |}
           {| Webview.isWaiting := true;
              Webview.currentAssistantBubble := false;
              Webview.currentAssistantText := EmptyString;
              Webview.input := EmptyString;
              Webview.sendDisabled := true |}
           [Webview.autoResize]
           {| Incoming.type := "sendMessage"; Incoming.text := "hi" |}
           eq_refl)
    as (_ & _ & _ & _ & Hblank & _).
  exact Hblank.
Defined.

(** ** A reset while a prompt is in flight *)


(** The same reset once the completion call is out and before the response
    arrives: the history that the reset has emptied receives the answer to
    the abandoned prompt, while the conversation stays forgotten. *)
Lemma reset_while_streaming_refills_history :
  _handleUserMessageWhile (resetAt awaitResponse)
    (world (ok [deltaLine "Hel"; deltaLine "lo"])) "hi" (opened (Some "sk-1"))
  = (Returned tt,
     {| secrets := Some "sk-1";
        _messages := [{| role := assistant; content := "Hello" |}];
        _orgId := VString "org-1"; _conversationId := VUndefined |},
     [postMessage (userMessage "hi");
      postMessage thinking;
      postMessage (status "Getting organization...");
      request {| method := "GET"; path := "/api/organizations";
                 Cookie := "sessionKey=sk-1"; Accept := None; body := None |};
      postMessage (status "Starting conversation...");
      request {| method := "POST";
                 path := "/api/organizations/org-1/chat_conversations";
                 Cookie := "sessionKey=sk-1"; Accept := None;
                 body := Some (VObject
                                 [("uuid", VString "3f2b8c1e-7a4d-4e59-9b06-5d1c2a7e8f40");
                                  ("name", VString EmptyString)]) |};
      postMessage startAssistantMessage;
      request {| method := "POST";
                 path := "/api/organizations/org-1/chat_conversations/conv-1/completion";
                 Cookie := "sessionKey=sk-1";
                 Accept := Some "text/event-stream";
                 body := Some (VObject [("prompt", VString "hi");
                                        ("timezone", VString "Europe/Paris");
                                        ("attachments", VArray []);
                                        ("files", VArray [])]) |};
      postMessage clearChat;
      postMessage (chunk (VString "Hel"));
      postMessage (chunk (VString "lo"));
      postMessage done]).
Proof. reflexivity. Qed.

(** ** [Buffer]s *)

(** A character encoded on two bytes decodes in one [Buffer], and in neither
    of the two [Buffer]s of a cut between its bytes. *)
Lemma cut_inside_a_character :
  Buffer.toString [Byte.xc3; Byte.xa9] = Some (String "233" EmptyString)
  /\ Buffer.toString [Byte.xc3] = None
  /\ Buffer.toString [Byte.xa9] = None.
Proof. repeat split. Qed.

(** The legacy scenario with a character encoded on two bytes in its text,
    cut in the middle of the line, before that character. *)
Lemma buffer_boundary_independence_run :
  Buffer.texts
    [list_byte_of_string (Str.dq "data: {'completion':'caf");
     ([Byte.xc3; Byte.xa9] ++ list_byte_of_string (Str.line (Str.dq "'}")))%list]
  = Some [Str.dq "data: {'completion':'caf";
          String "233" (Str.line (Str.dq "'}"))]
  /\ onDataBuffers EmptyString
       [list_byte_of_string (Str.dq "data: {'completion':'caf");
        ([Byte.xc3; Byte.xa9] ++ list_byte_of_string (Str.line (Str.dq "'}")))%list]
     = Some [onChunk (VString ("caf" ++ String "233" EmptyString))].
Proof.
  assert (Hdecoded :
            Buffer.texts
              [list_byte_of_string (Str.dq "data: {'completion':'caf");
               ([Byte.xc3; Byte.xa9]
                ++ list_byte_of_string (Str.line (Str.dq "'}")))%list]
            = Some [Str.dq "data: {'completion':'caf";
                    String "233" (Str.line (Str.dq "'}"))])
    by reflexivity.
  split; [exact Hdecoded|].
  exact (proj1 (buffer_boundary_independence _ _ Hdecoded eq_refl)).
Defined.

(** The legacy scenario with carriage returns, in two [Buffer]s. *)
Lemma line_endings_in_buffers_run :
  Buffer.texts
    [list_byte_of_string (Str.dq "data: {'comple");
     list_byte_of_string (Str.dq "tion':'Hi'}" ++ CRLF ++ "data: [DONE]" ++ CRLF)]
  = Some [Str.dq "data: {'comple";
          Str.dq "tion':'Hi'}" ++ CRLF ++ "data: [DONE]" ++ CRLF]
  /\ onDataBuffers EmptyString
       [list_byte_of_string (Str.dq "data: {'comple");
        list_byte_of_string (Str.dq "tion':'Hi'}" ++ CRLF ++ "data: [DONE]" ++ CRLF)]
     = Some (forLines [Str.dq "data: {'completion':'Hi'}"; "data: [DONE]"]).
Proof.
  assert (Hdecoded :
            Buffer.texts
              [list_byte_of_string (Str.dq "data: {'comple");
               list_byte_of_string
                 (Str.dq "tion':'Hi'}" ++ CRLF ++ "data: [DONE]" ++ CRLF)]
            = Some [Str.dq "data: {'comple";
                    Str.dq "tion':'Hi'}" ++ CRLF ++ "data: [DONE]" ++ CRLF])
    by reflexivity.
  split; [exact Hdecoded|].
  apply (line_endings_in_buffers
           [Str.dq "data: {'completion':'Hi'}"; "data: [DONE]"] _ _ Hdecoded).
  - reflexivity.
  - reflexivity.
  - left. reflexivity.
Defined.

End FurtherRuns.
